(** * Kuadrant operator: reconciliation workflow, status conditions, spec merge

    A shallow embedding of

    - [controllers/authpolicy_status.go]  (status condition calculator),
    - [pkg/kuadranttools/limitador_tools.go]  (spec merge mutator),
    - the state-of-the-world controller  (event logger, topology file
      reconciler, Authorino CR reconciler and the workflow that composes them),

    together with the properties its specification states about them.

    Go code that logs, calls the API server or can panic is embedded in a
    small writer-with-panic monad: a computation yields the list of effects it
    performed, in order, and either a value or a panic.  Pointers to structs
    are embedded by value; [nil] pointers and [nil] interfaces are [None]. *)

From stdpp Require Import base option list strings gmap pretty.
From Stdlib Require Import ZArith.

Local Open Scope Z_scope.
Local Open Scope string_scope.
Local Open Scope list_scope.

(** ** Effects: a trace of calls, and panics *)

Module Go.

(** The outcome of running a Go function body: it returns, or it panics
    (failed type assertion, nil dereference, explicit [panic]). *)
Inductive Res (A : Type) : Type :=
| Ok (a : A)
| Panic (msg : string).
Arguments Ok {A} a.
Arguments Panic {A} msg.

(** A computation over effects [E]: what it did, then how it ended. *)
Definition M (E A : Type) : Type := (list E * Res A)%type.

Definition ret {E A} (a : A) : M E A := ([], Ok a).

Definition bind {E A B} (m : M E A) (k : A → M E B) : M E B :=
  match m with
  | (tr, Ok a) => let '(tr', r) := k a in (tr ++ tr', r)
  | (tr, Panic msg) => (tr, Panic msg)
  end.

Definition emit {E} (e : E) : M E () := ([e], Ok ()).

Definition panic {E A} (msg : string) : M E A := ([], Panic msg).

(** [defer f]: the deferred call runs when the body ends, also by a panic. *)
Definition defer {E A} (deferred : list E) (body : M E A) : M E A :=
  (body.1 ++ deferred, body.2).

Definition trace {E A} (m : M E A) : list E := m.1.
Definition result {E A} (m : M E A) : Res A := m.2.

Definition returns {A} (r : Res A) : bool :=
  match r with Ok _ => true | Panic _ => false end.

(** [for _, x := range xs { body x }] *)
Fixpoint forRange {E A} (xs : list A) (body : A → M E ()) : M E () :=
  match xs with
  | [] => ret ()
  | x :: xs' => bind (body x) (λ _, forRange xs' body)
  end.

(** ** Errors

    A Go [error] value.  [StatusError] is the API server's answer
    ([k8s.io/apimachinery/pkg/api/errors]), [ErrorString] an
    [errors.New]/[fmt.Errorf] without [%w], [Wrapped] a
    [fmt.Errorf("<prefix>%w", inner)]. *)
Inductive StatusReason : Type :=
| StatusReasonUnknown
| StatusReasonAlreadyExists
| StatusReasonConflict
| StatusReasonNotFound
| StatusReasonInvalid
| StatusReasonTimeout.

#[global] Instance StatusReason_eq_dec : EqDecision StatusReason.
Proof. solve_decision. Defined.

Inductive error : Type :=
| StatusError (reason : StatusReason) (message : string)
| ErrorString (message : string)
| Wrapped (prefix : string) (inner : error).

#[global] Instance error_eq_dec : EqDecision error.
Proof. solve_decision. Defined.

(** [err.Error()] *)
Fixpoint Error (e : error) : string :=
  match e with
  | StatusError _ m => m
  | ErrorString m => m
  | Wrapped p inner => p +:+ Error inner
  end.

(** [errors.ReasonForError]: the reason of the first API status in the
    [Unwrap] chain, [StatusReasonUnknown] when there is none. *)
Fixpoint ReasonForError (e : error) : StatusReason :=
  match e with
  | StatusError r _ => r
  | ErrorString _ => StatusReasonUnknown
  | Wrapped _ inner => ReasonForError inner
  end.

Definition IsConflict (e : error) : bool :=
  bool_decide (ReasonForError e = StatusReasonConflict).

Definition IsAlreadyExists (e : error) : bool :=
  bool_decide (ReasonForError e = StatusReasonAlreadyExists).

(** [strings.Compare]: -1, 0 or 1 by lexicographic byte order. *)
Definition strings_Compare (a b : string) : Z :=
  match String.compare a b with
  | Eq => 0
  | Lt => -1
  | Gt => 1
  end.

Lemma strings_Compare_eq (a b : string) : strings_Compare a b = 0 ↔ a = b.
Proof.
  unfold strings_Compare. split.
  - destruct (String.compare a b) eqn:Hcmp; try discriminate.
    intros _. apply String.compare_eq_iff. exact Hcmp.
  - intros <-. pose proof (String.compare_antisym a a) as Hanti.
    destruct (String.compare a a); simpl in Hanti; congruence.
Qed.

(** ** Logging

    What a [logr.Logger] is asked to record: the logger's name, the verbosity
    level of an [Info] ([V(n)]), the error of an [Error], the message and the
    key/value pairs. *)
Inductive LogValue : Type :=
| VString (s : string)
| VBool (b : bool)
| VError (e : option error).

Inductive LogEntry : Type :=
| Info (name : string) (V : nat) (msg : string)
    (keysAndValues : list (string * LogValue))
| ErrorEntry (name : string) (err : error) (msg : string)
    (keysAndValues : list (string * LogValue)).

Definition isErrorEntry (l : LogEntry) : bool :=
  match l with ErrorEntry _ _ _ _ => true | Info _ _ _ _ => false end.

End Go.

Export Go.

#[global] Instance M_ret {E} : MRet (Go.M E) := λ A, Go.ret.
#[global] Instance M_bind {E} : MBind (Go.M E) := λ A B k m, Go.bind m k.

(** *** How a sequence runs *)

Lemma trace_bind {E A B} (m : M E A) (k : A → M E B) :
  trace (m ≫= k)
  = trace m ++ match result m with
               | Ok a => trace (k a)
               | Panic _ => []
               end.
Proof.
  destruct m as [tr [a|msg]]; cbn.
  - destruct (k a); reflexivity.
  - symmetry; apply app_nil_r.
Qed.

Lemma result_bind {E A B} (m : M E A) (k : A → M E B) :
  result (m ≫= k)
  = match result m with
    | Ok a => result (k a)
    | Panic msg => Panic msg
    end.
Proof.
  destruct m as [tr [a|msg]]; cbn; [destruct (k a)|]; reflexivity.
Qed.

Lemma bind_assoc {E A B C} (m : M E A) (k : A → M E B) (h : B → M E C) :
  (m ≫= k) ≫= h = m ≫= (λ a, k a ≫= h).
Proof.
  destruct m as [tr [a|msg]]; cbn; [|reflexivity].
  destruct (k a) as [tr1 [b|msg]]; cbn; [|reflexivity].
  destruct (h b) as [tr2 r]. rewrite app_assoc. reflexivity.
Qed.

Lemma forRange_one {E A} (x : A) (body : A → M E ()) :
  forRange [x] body = body x.
Proof.
  cbn. destruct (body x) as [tr [[]|msg]]; cbn; [rewrite app_nil_r|]; reflexivity.
Qed.

Lemma M_eta {E A} (m : M E A) : m = (trace m, result m).
Proof. destruct m; reflexivity. Qed.

(** ** API machinery: object metadata and status conditions *)

Module Meta.

(** [metav1.Time]; the zero value is distinguished ([IsZero]). *)
Inductive Time : Type :=
| TimeZero
| TimeAt (unix : Z).

#[global] Instance Time_eq_dec : EqDecision Time.
Proof. solve_decision. Defined.

Definition IsZero (t : Time) : bool :=
  match t with TimeZero => true | TimeAt _ => false end.

Record TypeMeta : Type := mkTypeMeta {
  Kind : string;
  APIVersion : string;
}.

Record OwnerReference : Type := mkOwnerReference {
  OwnerAPIVersion : string;
  OwnerKind : string;
  OwnerName : string;
  OwnerUID : string;
  BlockOwnerDeletion : option bool;
  Controller : option bool;
}.

Record ObjectMeta : Type := mkObjectMeta {
  Name : string;
  Namespace : string;
  UID : string;
  Generation : Z;
  DeletionTimestamp : option Time;
  Labels : gmap string string;
  OwnerReferences : list OwnerReference;
}.

#[global] Instance TypeMeta_eq_dec : EqDecision TypeMeta.
Proof. solve_decision. Defined.
#[global] Instance OwnerReference_eq_dec : EqDecision OwnerReference.
Proof. solve_decision. Defined.
#[global] Instance ObjectMeta_eq_dec : EqDecision ObjectMeta.
Proof. solve_decision. Defined.

(** [schema.GroupKind] *)
Record GroupKind : Type := mkGroupKind {
  Group : string;
  GKKind : string;
}.

#[global] Instance GroupKind_eq_dec : EqDecision GroupKind.
Proof. solve_decision. Defined.

(** [client.ObjectKey] *)
Record ObjectKey : Type := mkObjectKey {
  KeyNamespace : string;
  KeyName : string;
}.

Inductive ConditionStatus : Type :=
| ConditionTrue
| ConditionFalse
| ConditionUnknown.

#[global] Instance ConditionStatus_eq_dec : EqDecision ConditionStatus.
Proof. solve_decision. Defined.

(** [metav1.Condition] *)
Record Condition : Type := mkCondition {
  Type_ : string;
  Status : ConditionStatus;
  ObservedGeneration : Z;
  LastTransitionTime : Time;
  Reason : string;
  Message : string;
}.

#[global] Instance Condition_eq_dec : EqDecision Condition.
Proof. solve_decision. Defined.

(** [meta.FindStatusCondition]: the first condition of the given type. *)
Fixpoint FindStatusCondition (conditions : list Condition)
    (conditionType : string) : option Condition :=
  match conditions with
  | [] => None
  | c :: cs =>
      if bool_decide (Type_ c = conditionType) then Some c
      else FindStatusCondition cs conditionType
  end.

(** The in-place update [meta.SetStatusCondition] makes to the condition it
    found: status (with the transition time when the status changes),
    reason, message and observed generation are taken from the new one. *)
Definition updateExisting (now : Time) (existing new : Condition) : Condition :=
  let changed := bool_decide (Status existing ≠ Status new) in
  {| Type_ := Type_ existing;
     Status := if changed then Status new else Status existing;
     ObservedGeneration := ObservedGeneration new;
     LastTransitionTime :=
       if changed then
         if negb (IsZero (LastTransitionTime new)) then LastTransitionTime new
         else now
       else LastTransitionTime existing;
     Reason := Reason new;
     Message := Message new |}.

(** Modelled from the spec: [meta.SetStatusCondition] of
    k8s.io/apimachinery, which is not under src/ ("only the availability
    condition is upserted by type").  The first condition of the new
    condition's type is updated in place; when there is none the new
    condition is appended, stamped with the current time if it carries no
    transition time. *)
Fixpoint SetStatusCondition (now : Time) (conditions : list Condition)
    (newCondition : Condition) : list Condition :=
  match conditions with
  | [] =>
      [ if IsZero (LastTransitionTime newCondition)
        then {| Type_ := Type_ newCondition;
                Status := Status newCondition;
                ObservedGeneration := ObservedGeneration newCondition;
                LastTransitionTime := now;
                Reason := Reason newCondition;
                Message := Message newCondition |}
        else newCondition ]
  | c :: cs =>
      if bool_decide (Type_ c = Type_ newCondition)
      then updateExisting now c newCondition :: cs
      else c :: SetStatusCondition now cs newCondition
  end.

(** The condition [FindStatusCondition] returns has the type asked for. *)
Lemma FindStatusCondition_type conditions conditionType c :
  FindStatusCondition conditions conditionType = Some c → Type_ c = conditionType.
Proof.
  induction conditions as [|c0 cs IH]; simpl; [discriminate|].
  case_bool_decide; [intros [= <-]; assumption | exact IH].
Qed.

(** After [SetStatusCondition], looking the new condition's type up finds a
    condition with the new status, reason and message. *)
Lemma FindStatusCondition_Set now conditions newCondition :
  ∃ c, FindStatusCondition (SetStatusCondition now conditions newCondition)
         (Type_ newCondition) = Some c
       ∧ Status c = Status newCondition
       ∧ Reason c = Reason newCondition
       ∧ Message c = Message newCondition.
Proof.
  induction conditions as [|c0 cs IH]; simpl.
  - destruct (IsZero (LastTransitionTime newCondition)); simpl;
      rewrite bool_decide_eq_true_2 by reflexivity; eexists; eauto.
  - case_bool_decide as Hty; simpl.
    + rewrite bool_decide_eq_true_2 by exact Hty.
      eexists; split; [reflexivity|]. simpl.
      case_bool_decide as Hst; [auto|].
      split; [exact Hst|auto].
    + rewrite bool_decide_eq_false_2 by exact Hty. exact IH.
Qed.

(** Conditions of another type are neither changed nor moved: a lookup of any
    other type gives what it gave before. *)
Lemma FindStatusCondition_Set_other now conditions newCondition ty :
  ty ≠ Type_ newCondition →
  FindStatusCondition (SetStatusCondition now conditions newCondition) ty
  = FindStatusCondition conditions ty.
Proof.
  intros Hne. induction conditions as [|c0 cs IH]; simpl.
  - destruct (IsZero (LastTransitionTime newCondition)); simpl;
      rewrite bool_decide_eq_false_2; congruence.
  - case_bool_decide as Hty; simpl.
    + rewrite !bool_decide_eq_false_2; congruence.
    + case_bool_decide; [reflexivity | exact IH].
Qed.

(** Setting a condition that carries no transition time a second time, at
    any later moment, changes nothing. *)
Lemma SetStatusCondition_again now now' conditions newCondition :
  IsZero (LastTransitionTime newCondition) = true →
  SetStatusCondition now'
    (SetStatusCondition now conditions newCondition) newCondition
  = SetStatusCondition now conditions newCondition.
Proof.
  intros Hzero. induction conditions as [|c0 cs IH]; simpl.
  - rewrite Hzero. simpl. rewrite bool_decide_eq_true_2 by reflexivity.
    unfold updateExisting. simpl.
    rewrite bool_decide_eq_false_2 by (intros Hne; apply Hne; reflexivity).
    reflexivity.
  - case_bool_decide as Hty; simpl.
    + rewrite bool_decide_eq_true_2 by exact Hty.
      f_equal. unfold updateExisting. simpl.
      destruct (bool_decide (Status c0 ≠ Status newCondition)) eqn:Hchanged.
      * rewrite bool_decide_eq_false_2 by (intros Hne; apply Hne; reflexivity).
        reflexivity.
      * apply bool_decide_eq_false in Hchanged. apply dec_stable in Hchanged.
        rewrite bool_decide_eq_false_2 by (intros Hne; apply Hne; exact Hchanged).
        reflexivity.
    + rewrite bool_decide_eq_false_2 by exact Hty. f_equal. exact IH.
Qed.

(** The list grows by one when the type is new and keeps its length when a
    condition of the type is there. *)
Lemma SetStatusCondition_length now conditions newCondition :
  length (SetStatusCondition now conditions newCondition)
  = match FindStatusCondition conditions (Type_ newCondition) with
    | Some _ => length conditions
    | None => S (length conditions)
    end.
Proof.
  induction conditions as [|c0 cs IH]; simpl; [reflexivity|].
  case_bool_decide; simpl; [reflexivity|].
  rewrite IH. destruct (FindStatusCondition cs (Type_ newCondition)); reflexivity.
Qed.

End Meta.


(** ** Status condition calculator ([controllers/authpolicy_status.go]) *)

Module AuthPolicyStatus.

Record PolicyTargetReference : Type := mkPolicyTargetReference {
  TargetGroup : string;
  TargetKind : string;
  TargetName : string;
}.

Record AuthPolicySpec : Type := mkAuthPolicySpec {
  TargetRef : PolicyTargetReference;
}.

(** [kuadrantv1beta1.AuthPolicyStatus] *)
Record AuthPolicyStatus : Type := mkAuthPolicyStatus {
  Conditions : list Meta.Condition;
  ObservedGeneration : Z;
}.

(** [kuadrantv1beta1.AuthPolicy] *)
Record AuthPolicy : Type := mkAuthPolicy {
  ObjectMeta : Meta.ObjectMeta;
  Spec : AuthPolicySpec;
  Status : AuthPolicyStatus;
}.

Definition Generation (ap : AuthPolicy) : Z := Meta.Generation (ObjectMeta ap).
Definition Namespace (ap : AuthPolicy) : string := Meta.Namespace (ObjectMeta ap).
Definition Name (ap : AuthPolicy) : string := Meta.Name (ObjectMeta ap).

(** [authorinov1beta1.AuthConfig], as far as it is read:
    [authConfig.Status.Ready()]. *)
Record AuthConfig : Type := mkAuthConfig {
  Ready : bool;
}.

(** [ctrl.Result] *)
Record Result : Type := mkResult {
  Requeue : bool;
}.

(** The reconciler's two calls to the API server, as the answers it gets:
    [r.GetResource(ctx, key, authConfig)] fills [authConfig] and returns an
    error or nil; [r.Client().Status().Update(ctx, ap)] returns an error or
    nil.  The reply the client decodes into [ap] after an accepted update is
    not part of the model. *)
Record AuthPolicyReconciler : Type := mkAuthPolicyReconciler {
  GetResource : Meta.ObjectKey → AuthConfig * option error;
  StatusUpdate : AuthPolicy → option error;
}.

Inductive Effect : Type :=
| Log (entry : LogEntry)
| GetResourceCall (key : Meta.ObjectKey)
| StatusUpdateCall (ap : AuthPolicy).

(** The status writes a pass issued, in order. *)
Definition statusWrites (tr : list Effect) : list AuthPolicy :=
  omap (λ e, match e with StatusUpdateCall ap => Some ap | _ => None end) tr.

Lemma statusWrites_app tr1 tr2 :
  statusWrites (tr1 ++ tr2) = statusWrites tr1 ++ statusWrites tr2.
Proof. apply omap_app. Qed.

Lemma statusWrites_cons e tr :
  statusWrites (e :: tr)
  = match e with
    | StatusUpdateCall ap => ap :: statusWrites tr
    | _ => statusWrites tr
    end.
Proof. destruct e; reflexivity. Qed.

#[local] Arguments statusWrites : simpl never.

Definition APAvailableConditionType : string := "Available".

(** [client.ObjectKeyFromObject] *)
Definition ObjectKeyFromObject (ap : AuthPolicy) : Meta.ObjectKey :=
  {| Meta.KeyNamespace := Namespace ap; Meta.KeyName := Name ap |}.

(** Modelled from the spec: [common.CopyConditions] of pkg/common, which is
    not under src/ ("copy-on-write of the condition list"): the copy holds the
    same conditions, and updating it leaves the object's own list alone, which
    the embedding by value gives. *)
Definition CopyConditions (conditions : list Meta.Condition) : list Meta.Condition :=
  conditions.

Section Reconciler.

(** What the file takes from outside: the clock [meta.SetStatusCondition]
    reads, the name of a policy's AuthConfig ([authConfigName], declared
    elsewhere in the package) and the status comparison
    ([AuthPolicyStatus.Equals], declared with the API types). *)
Variable now : Meta.Time.
Variable authConfigName : Meta.ObjectKey → string.
Variable Equals : AuthPolicyStatus → AuthPolicyStatus → bool.

Definition availableCondition (targetNetworkObjectectKind : string)
    (specErr : option error) (authConfigReady : bool) : Meta.Condition :=
  (* Condition if there is not issue *)
  let cond :=
    {| Meta.Type_ := APAvailableConditionType;
       Meta.Status := Meta.ConditionTrue;
       Meta.ObservedGeneration := 0;
       Meta.LastTransitionTime := Meta.TimeZero;
       Meta.Reason := targetNetworkObjectectKind +:+ "Protected";
       Meta.Message := targetNetworkObjectectKind +:+ " is protected" |} in
  match specErr with
  | Some err =>
      {| Meta.Type_ := Meta.Type_ cond;
         Meta.Status := Meta.ConditionFalse;
         Meta.ObservedGeneration := Meta.ObservedGeneration cond;
         Meta.LastTransitionTime := Meta.LastTransitionTime cond;
         Meta.Reason := "ReconciliationError";
         Meta.Message := Error err |}
  | None =>
      if negb authConfigReady then
        {| Meta.Type_ := Meta.Type_ cond;
           Meta.Status := Meta.ConditionFalse;
           Meta.ObservedGeneration := Meta.ObservedGeneration cond;
           Meta.LastTransitionTime := Meta.LastTransitionTime cond;
           Meta.Reason := "AuthSchemeNotReady";
           Meta.Message := "AuthScheme is not ready yet" |}
      else cond
  end.

Definition calculateStatus (ap : AuthPolicy) (specErr : option error)
    (authConfigReady : bool) : AuthPolicyStatus :=
  let newStatus :=
    {| Conditions := CopyConditions (Conditions (Status ap));
       ObservedGeneration := ObservedGeneration (Status ap) |} in
  let targetNetworkObjectectKind := TargetKind (TargetRef (Spec ap)) in
  let availableCond :=
    availableCondition targetNetworkObjectectKind specErr authConfigReady in
  {| Conditions := Meta.SetStatusCondition now (Conditions newStatus) availableCond;
     ObservedGeneration := ObservedGeneration newStatus |}.

(** Lines 25-39: the AuthConfig is fetched only when there is no spec error;
    [inl err] is the early return of line 35. *)
Definition fetchAuthConfigReady (r : AuthPolicyReconciler) (ap : AuthPolicy)
    (specErr : option error) : M Effect (error + bool) :=
  match specErr with
  | None =>
      let apKey := ObjectKeyFromObject ap in
      let authConfigKey :=
        {| Meta.KeyNamespace := Namespace ap;
           Meta.KeyName := authConfigName apKey |} in
      emit (GetResourceCall authConfigKey);;
      let '(authConfig, err) := GetResource r authConfigKey in
      match err with
      | Some err => mret (inl err)
      | None => mret (inr (Ready authConfig))
      end
  | Some _ => mret (inr true)
  end.

(** [reconcileStatus] returns the [(ctrl.Result, error)] pair; [ap] is a
    pointer the function writes through (line 60), so the object as the
    function's own assignment leaves it, which is the object it submits, is
    returned with the pair. *)
Definition reconcileStatus (r : AuthPolicyReconciler) (ap : AuthPolicy)
    (specErr : option error) : M Effect (AuthPolicy * (Result * option error)) :=
  emit (Log (Info "" 1 "Reconciling AuthPolicy status"
               [("spec error", VError specErr)]));;
  fetched ← fetchAuthConfigReady r ap specErr;
  match fetched with
  | inl err => mret (ap, ({| Requeue := false |}, Some err))
  | inr isAuthConfigReady =>
      let newStatus := calculateStatus ap specErr isAuthConfigReady in
      let equalStatus := Equals (Status ap) newStatus in
      emit (Log (Info "" 1 "Status"
                   [("status is different", VBool (negb equalStatus))]));;
      emit (Log (Info "" 1 "Status"
                   [("generation is different",
                     VBool (bool_decide (Generation ap ≠ ObservedGeneration (Status ap))))]));;
      emit (Log (Info "" 1 "Status"
                   [("AuthConfig is ready", VBool isAuthConfigReady)]));;
      if equalStatus && bool_decide (Generation ap = ObservedGeneration (Status ap))
      then
        emit (Log (Info "" 1 "Status up-to-date. No changes required." []));;
        mret (ap, ({| Requeue := false |}, None))
      else
        (* Save the generation number we acted on *)
        let newStatus :=
          {| Conditions := Conditions newStatus;
             ObservedGeneration := Generation ap |} in
        emit (Log (Info "" 1 "Updating Status"
                     [("sequence no:",
                       VString ("sequence No: "
                                +:+ pretty (ObservedGeneration (Status ap))
                                +:+ "->"
                                +:+ pretty (ObservedGeneration newStatus)))]));;
        let ap :=
          {| ObjectMeta := ObjectMeta ap; Spec := Spec ap; Status := newStatus |} in
        emit (StatusUpdateCall ap);;
        match StatusUpdate r ap with
        | Some updateErr =>
            (* Ignore conflicts, resource might just be outdated. *)
            if IsConflict updateErr then
              emit (Log (Info "" 0
                           "Failed to update status: resource might just be outdated" []));;
              mret (ap, ({| Requeue := true |}, None))
            else
              mret (ap, ({| Requeue := false |},
                         Some (Wrapped "failed to update status: " updateErr)))
        | None => mret (ap, ({| Requeue := false |}, None))
        end
  end.

(** *** Properties *)

Lemma availableCondition_type kind specErr ready :
  Meta.Type_ (availableCondition kind specErr ready) = APAvailableConditionType.
Proof. unfold availableCondition. destruct specErr, ready; reflexivity. Qed.

(** C1. Availability precedence of [calculateStatus], for every policy, spec
    error and readiness flag: the condition [availableCondition] builds, and
    the "Available" condition found in the computed status, are False /
    "ReconciliationError" / the error text when the spec error is non-nil;
    else False / "AuthSchemeNotReady" when the AuthConfig is not ready; else
    True / "<TargetKind>Protected" / "<TargetKind> is protected". *)
Theorem calculateStatus_availability_precedence
    (ap : AuthPolicy) (specErr : option error) (authConfigReady : bool) :
  let kind := TargetKind (TargetRef (Spec ap)) in
  let expected (c : Meta.Condition) : Prop :=
    match specErr with
    | Some err =>
        Meta.Status c = Meta.ConditionFalse
        ∧ Meta.Reason c = "ReconciliationError"
        ∧ Meta.Message c = Error err
    | None =>
        if authConfigReady then
          Meta.Status c = Meta.ConditionTrue
          ∧ Meta.Reason c = kind +:+ "Protected"
          ∧ Meta.Message c = kind +:+ " is protected"
        else
          Meta.Status c = Meta.ConditionFalse
          ∧ Meta.Reason c = "AuthSchemeNotReady"
          ∧ Meta.Message c = "AuthScheme is not ready yet"
    end in
  expected (availableCondition kind specErr authConfigReady)
  ∧ ∃ c,
      Meta.FindStatusCondition
        (Conditions (calculateStatus ap specErr authConfigReady))
        APAvailableConditionType = Some c
      ∧ Meta.Type_ c = APAvailableConditionType
      ∧ expected c.
Proof.
  intros kind expected.
  assert (Hexp : expected (availableCondition kind specErr authConfigReady)).
  { unfold expected, availableCondition.
    destruct specErr as [err|]; [|destruct authConfigReady]; simpl; auto. }
  split; [exact Hexp|].
  destruct (Meta.FindStatusCondition_Set now
              (CopyConditions (Conditions (Status ap)))
              (availableCondition kind specErr authConfigReady))
    as (c & Hfind & Hst & Hre & Hme).
  rewrite availableCondition_type in Hfind.
  exists c. split; [exact Hfind|].
  split; [exact (Meta.FindStatusCondition_type _ _ _ Hfind)|].
  unfold expected in *. rewrite Hst, Hre, Hme. exact Hexp.
Qed.

Lemma fetchAuthConfigReady_no_write r ap specErr :
  statusWrites (trace (fetchAuthConfigReady r ap specErr)) = []
  ∧ returns (result (fetchAuthConfigReady r ap specErr)) = true.
Proof.
  unfold fetchAuthConfigReady. destruct specErr as [e|]; [split; reflexivity|].
  cbn. destruct (GetResource r _) as [authConfig [err|]]; split; reflexivity.
Qed.

(** The fetch error of line 35 ends the pass before any status is computed:
    nothing is written and the error goes to the caller as it is. *)
Lemma reconcileStatus_fetch_error r ap specErr err :
  result (fetchAuthConfigReady r ap specErr) = Ok (inl err) →
  statusWrites (trace (reconcileStatus r ap specErr)) = []
  ∧ result (reconcileStatus r ap specErr)
    = Ok (ap, ({| Requeue := false |}, Some err)).
Proof.
  intros Hf. pose proof (fetchAuthConfigReady_no_write r ap specErr) as [Hw _].
  unfold reconcileStatus.
  destruct (fetchAuthConfigReady r ap specErr) as [tr0 res0].
  simpl in Hf, Hw. subst res0. cbn.
  rewrite app_nil_r, statusWrites_cons. split; [exact Hw | reflexivity].
Qed.

(** What the pass does once the AuthConfig's readiness is known (lines
    41-71), in one statement; the theorems below read it off. *)
Lemma reconcileStatus_computed r ap specErr isAuthConfigReady :
  result (fetchAuthConfigReady r ap specErr) = Ok (inr isAuthConfigReady) →
  let newStatus := calculateStatus ap specErr isAuthConfigReady in
  let ap' :=
    {| ObjectMeta := ObjectMeta ap; Spec := Spec ap;
       Status := {| Conditions := Conditions newStatus;
                    ObservedGeneration := Generation ap |} |} in
  let pass := reconcileStatus r ap specErr in
  if Equals (Status ap) newStatus
     && bool_decide (Generation ap = ObservedGeneration (Status ap))
  then
    statusWrites (trace pass) = []
    ∧ result pass = Ok (ap, ({| Requeue := false |}, None))
  else
    statusWrites (trace pass) = [ap']
    ∧ result pass
      = Ok (ap',
            match StatusUpdate r ap' with
            | Some updateErr =>
                if IsConflict updateErr
                then ({| Requeue := true |}, None)
                else ({| Requeue := false |},
                      Some (Wrapped "failed to update status: " updateErr))
            | None => ({| Requeue := false |}, None)
            end).
Proof.
  intros Hf newStatus ap' pass.
  pose proof (fetchAuthConfigReady_no_write r ap specErr) as [Hw _].
  subst pass ap' newStatus. unfold reconcileStatus.
  destruct (fetchAuthConfigReady r ap specErr) as [tr0 res0].
  simpl in Hf, Hw. subst res0. cbn -[calculateStatus].
  generalize (calculateStatus ap specErr isAuthConfigReady) as newStatus.
  intros newStatus.
  destruct (Equals (Status ap) newStatus
            && bool_decide (Generation ap = ObservedGeneration (Status ap))).
  - cbn. rewrite statusWrites_cons, statusWrites_app, Hw. split; reflexivity.
  - cbn.
    destruct (StatusUpdate r _) as [updateErr|];
      [destruct (IsConflict updateErr)|];
      cbn; rewrite statusWrites_cons, statusWrites_app, Hw;
      split; reflexivity.
Qed.

(** C4. Once the new status is computed, [reconcileStatus] writes nothing
    when the new status equals the current one and the object's generation is
    the observed one; in every other case it issues exactly one status
    update, of the object carrying the new conditions and an observed
    generation set to the object's generation. *)
Theorem reconcileStatus_write_guard
    (r : AuthPolicyReconciler) (ap : AuthPolicy) (specErr : option error)
    (isAuthConfigReady : bool) :
  result (fetchAuthConfigReady r ap specErr) = Ok (inr isAuthConfigReady) →
  let newStatus := calculateStatus ap specErr isAuthConfigReady in
  let pass := reconcileStatus r ap specErr in
  if Equals (Status ap) newStatus
     && bool_decide (Generation ap = ObservedGeneration (Status ap))
  then
    statusWrites (trace pass) = []
    ∧ result pass = Ok (ap, ({| Requeue := false |}, None))
  else
    ∃ ap' res,
      statusWrites (trace pass) = [ap']
      ∧ result pass = Ok (ap', res)
      ∧ ObjectMeta ap' = ObjectMeta ap
      ∧ Spec ap' = Spec ap
      ∧ Conditions (Status ap') = Conditions newStatus
      ∧ ObservedGeneration (Status ap') = Generation ap
      ∧ ObservedGeneration (Status ap') = Generation ap'.
Proof.
  intros Hf newStatus pass.
  pose proof (reconcileStatus_computed r ap specErr isAuthConfigReady Hf) as Hc.
  cbv zeta in Hc. fold newStatus pass in Hc.
  destruct (Equals (Status ap) newStatus && _); [exact Hc|].
  destruct Hc as [Hw Hr].
  eexists _, _. split; [exact Hw|]. split; [exact Hr|].
  repeat split; reflexivity.
Qed.

(** C7. When the status update call fails: a conflict is not an error, the
    pass returns a requeue result and nil; any other error is returned to the
    caller, wrapped as "failed to update status: ...". *)
Theorem reconcileStatus_update_failure
    (r : AuthPolicyReconciler) (ap : AuthPolicy) (specErr : option error)
    (ap' : AuthPolicy) (updateErr : error) :
  StatusUpdateCall ap' ∈ trace (reconcileStatus r ap specErr) →
  StatusUpdate r ap' = Some updateErr →
  result (reconcileStatus r ap specErr)
  = Ok (ap',
        if IsConflict updateErr
        then ({| Requeue := true |}, None)
        else ({| Requeue := false |},
              Some (Wrapped "failed to update status: " updateErr))).
Proof.
  intros Hcall Hresp.
  assert (Hin : ap' ∈ statusWrites (trace (reconcileStatus r ap specErr))).
  { unfold statusWrites. apply list_elem_of_omap.
    eexists; split; [exact Hcall|reflexivity]. }
  destruct (result (fetchAuthConfigReady r ap specErr)) as [[err|ready]|msg] eqn:Hf.
  - apply reconcileStatus_fetch_error in Hf as [Hw _].
    rewrite Hw in Hin. inversion Hin.
  - pose proof (reconcileStatus_computed r ap specErr ready Hf) as Hc.
    cbv zeta in Hc.
    destruct (Equals _ _ && _); destruct Hc as [Hw Hr];
      rewrite Hw in Hin; [inversion Hin|].
    apply list_elem_of_singleton in Hin. subst ap'.
    rewrite Hr, Hresp. reflexivity.
  - pose proof (fetchAuthConfigReady_no_write r ap specErr) as [_ Hr].
    rewrite Hf in Hr. discriminate.
Qed.

(** *** Further properties *)

Lemma availableCondition_no_time kind specErr ready :
  Meta.IsZero (Meta.LastTransitionTime (availableCondition kind specErr ready))
  = true.
Proof. unfold availableCondition. destruct specErr, ready; reflexivity. Qed.

(** X1. [calculateStatus] touches the "Available" condition only: a lookup
    of any other condition type gives what the policy's current status
    gives; the list of conditions grows by one when the policy has no
    "Available" condition and keeps its length otherwise; and the observed
    generation is the current one. *)
Theorem calculateStatus_keeps_other_conditions
    (ap : AuthPolicy) (specErr : option error) (authConfigReady : bool)
    (conditionType : string) :
  conditionType ≠ APAvailableConditionType →
  let newStatus := calculateStatus ap specErr authConfigReady in
  Meta.FindStatusCondition (Conditions newStatus) conditionType
  = Meta.FindStatusCondition (Conditions (Status ap)) conditionType
  ∧ length (Conditions newStatus)
    = match Meta.FindStatusCondition (Conditions (Status ap))
              APAvailableConditionType with
      | Some _ => length (Conditions (Status ap))
      | None => S (length (Conditions (Status ap)))
      end
  ∧ ObservedGeneration newStatus = ObservedGeneration (Status ap).
Proof.
  intros Hne newStatus. subst newStatus. unfold calculateStatus, CopyConditions.
  cbn [Conditions ObservedGeneration].
  split; [|split; [|reflexivity]].
  - apply Meta.FindStatusCondition_Set_other.
    rewrite availableCondition_type. exact Hne.
  - rewrite Meta.SetStatusCondition_length, availableCondition_type. reflexivity.
Qed.

(** X2. Without a spec error the AuthConfig is fetched, once; when the fetch
    fails the pass ends there: the fetch error is returned as it is, with an
    empty result, the policy is left as it was and no status is written. *)
Theorem reconcileStatus_fetch_failure
    (r : AuthPolicyReconciler) (ap : AuthPolicy) (authConfig : AuthConfig)
    (err : error) :
  GetResource r {| Meta.KeyNamespace := Namespace ap;
                   Meta.KeyName := authConfigName (ObjectKeyFromObject ap) |}
  = (authConfig, Some err) →
  reconcileStatus r ap None
  = ([ Log (Info "" 1 "Reconciling AuthPolicy status"
              [("spec error", VError None)]);
       GetResourceCall
         {| Meta.KeyNamespace := Namespace ap;
            Meta.KeyName := authConfigName (ObjectKeyFromObject ap) |} ],
     Ok (ap, ({| Requeue := false |}, Some err))).
Proof.
  intros Hget. unfold reconcileStatus, fetchAuthConfigReady.
  cbn. rewrite Hget. reflexivity.
Qed.

Definition isGetResourceCall (e : Effect) : bool :=
  match e with GetResourceCall _ => true | _ => false end.

Lemma reconcileStatus_trace_after_fetch r ap specErr isAuthConfigReady :
  result (fetchAuthConfigReady r ap specErr) = Ok (inr isAuthConfigReady) →
  List.filter isGetResourceCall (trace (reconcileStatus r ap specErr))
  = List.filter isGetResourceCall (trace (fetchAuthConfigReady r ap specErr)).
Proof.
  intros Hf. unfold reconcileStatus.
  destruct (fetchAuthConfigReady r ap specErr) as [tr0 res0].
  simpl in Hf. subst res0. cbn -[calculateStatus].
  generalize (calculateStatus ap specErr isAuthConfigReady) as newStatus.
  intros newStatus.
  destruct (Equals (Status ap) newStatus
            && bool_decide (Generation ap = ObservedGeneration (Status ap))).
  - cbn. rewrite List.filter_app. cbn. apply app_nil_r.
  - cbn. destruct (StatusUpdate r _) as [updateErr|];
      [destruct (IsConflict updateErr)|];
      cbn; rewrite List.filter_app; cbn; apply app_nil_r.
Qed.

(** X3. With a spec error the AuthConfig is not fetched: the pass makes no
    call to [GetResource], and a status it writes carries the "Available"
    condition False / "ReconciliationError" with the error's text as
    message. *)
Theorem reconcileStatus_spec_error_skips_fetch
    (r : AuthPolicyReconciler) (ap : AuthPolicy) (specErr : error) :
  List.filter isGetResourceCall (trace (reconcileStatus r ap (Some specErr))) = []
  ∧ ∀ written,
      written ∈ statusWrites (trace (reconcileStatus r ap (Some specErr))) →
      ∃ c,
        Meta.FindStatusCondition (Conditions (Status written))
          APAvailableConditionType = Some c
        ∧ Meta.Status c = Meta.ConditionFalse
        ∧ Meta.Reason c = "ReconciliationError"
        ∧ Meta.Message c = Error specErr.
Proof.
  assert (Hf : result (fetchAuthConfigReady r ap (Some specErr)) = Ok (inr true))
    by reflexivity.
  split.
  - rewrite (reconcileStatus_trace_after_fetch r ap (Some specErr) true Hf).
    reflexivity.
  - intros written Hin.
    pose proof (reconcileStatus_computed r ap (Some specErr) true Hf) as Hc.
    cbv zeta in Hc.
    destruct (Equals _ _ && _); destruct Hc as [Hw _]; rewrite Hw in Hin;
      [inversion Hin|].
    apply list_elem_of_singleton in Hin. subst written.
    cbn [Status Conditions]. unfold calculateStatus. cbn [Conditions].
    destruct (Meta.FindStatusCondition_Set now
                (CopyConditions (Conditions (Status ap)))
                (availableCondition (TargetKind (TargetRef (Spec ap)))
                   (Some specErr) true))
      as (c & Hfind & Hst & Hre & Hme).
    rewrite availableCondition_type in Hfind.
    exists c. split; [exact Hfind|]. rewrite Hst, Hre, Hme.
    repeat split; reflexivity.
Qed.

(** X5. A pass submits a status update at most once, and what it submits is
    the policy with nothing but its status replaced: the metadata and the
    spec are the policy's own.  A pass that submits nothing returns with the
    policy as it was. *)
Theorem reconcileStatus_frame
    (r : AuthPolicyReconciler) (ap : AuthPolicy) (specErr : option error) :
  (length (statusWrites (trace (reconcileStatus r ap specErr))) ≤ 1)%nat
  ∧ (∀ written,
       written ∈ statusWrites (trace (reconcileStatus r ap specErr)) →
       ObjectMeta written = ObjectMeta ap ∧ Spec written = Spec ap)
  ∧ (statusWrites (trace (reconcileStatus r ap specErr)) = [] →
     ∃ res, result (reconcileStatus r ap specErr) = Ok (ap, res)).
Proof.
  destruct (result (fetchAuthConfigReady r ap specErr)) as [[err|ready]|msg] eqn:Hf.
  - destruct (reconcileStatus_fetch_error r ap specErr err Hf) as [Hw Hr].
    rewrite Hw, Hr. split; [cbn; lia|]. split; [|eauto].
    intros written Hin. inversion Hin.
  - pose proof (reconcileStatus_computed r ap specErr ready Hf) as Hc.
    cbv zeta in Hc.
    destruct (Equals _ _ && _); destruct Hc as [Hw Hr]; rewrite Hw, Hr;
      (split; [cbn; lia|]); split.
    + intros written Hin. inversion Hin.
    + eauto.
    + intros written Hin. apply list_elem_of_singleton in Hin. subst written.
      split; reflexivity.
    + discriminate.
  - pose proof (fetchAuthConfigReady_no_write r ap specErr) as [_ Hr].
    rewrite Hf in Hr. discriminate.
Qed.

End Reconciler.

(** X4. The object a pass has written is settled: a later pass over it, at
    any time and against any server, under the same spec error and the same
    readiness of the AuthConfig, writes nothing and leaves it as it is
    (given that a status equals itself). *)
Theorem reconcileStatus_second_pass_writes_nothing
    (now now' : Meta.Time) (authConfigName : Meta.ObjectKey → string)
    (Equals : AuthPolicyStatus → AuthPolicyStatus → bool)
    (r r' : AuthPolicyReconciler) (ap written : AuthPolicy)
    (specErr : option error) (isAuthConfigReady : bool) :
  (∀ status, Equals status status = true) →
  result (fetchAuthConfigReady authConfigName r ap specErr)
  = Ok (inr isAuthConfigReady) →
  written ∈ statusWrites
              (trace (reconcileStatus now authConfigName Equals r ap specErr)) →
  result (fetchAuthConfigReady authConfigName r' written specErr)
  = Ok (inr isAuthConfigReady) →
  statusWrites
    (trace (reconcileStatus now' authConfigName Equals r' written specErr)) = []
  ∧ result (reconcileStatus now' authConfigName Equals r' written specErr)
    = Ok (written, ({| Requeue := false |}, None)).
Proof.
  intros Hrefl Hf Hin Hf'.
  pose proof (reconcileStatus_computed now authConfigName Equals r ap specErr
                isAuthConfigReady Hf) as Hc.
  cbv zeta in Hc.
  destruct (Equals _ _ && _); destruct Hc as [Hw _]; rewrite Hw in Hin;
    [inversion Hin|].
  apply list_elem_of_singleton in Hin.
  pose proof (reconcileStatus_computed now' authConfigName Equals r' written
                specErr isAuthConfigReady Hf') as Hc'.
  cbv zeta in Hc'.
  assert (Hfix : calculateStatus now' written specErr isAuthConfigReady
                 = Status written).
  { subst written. unfold calculateStatus at 1. cbn [Status Conditions Spec ObservedGeneration].
    unfold CopyConditions.
    unfold calculateStatus. cbn [Conditions].
    rewrite Meta.SetStatusCondition_again by apply availableCondition_no_time.
    reflexivity. }
  rewrite Hfix, Hrefl in Hc'.
  rewrite bool_decide_eq_true_2 in Hc' by (subst written; reflexivity).
  exact Hc'.
Qed.

(** *** A concrete pass: the sample policy [toystore]

    The sample of config/samples targets the HTTPRoute [toystore].  Its spec
    was edited once (generation 2) after the status was last written
    (observed generation 1). *)

(** Modelled from the spec: [AuthPolicyStatus.Equals] of api/v1beta1, which is
    not under src/ ("a semantic equality that ignores ObservedGeneration"):
    the two statuses hold the same conditions. *)
Definition EqualsIgnoringObservedGeneration (s other : AuthPolicyStatus) : bool :=
  bool_decide (Conditions s = Conditions other).

Definition sampleNow : Meta.Time := Meta.TimeAt 1700000000.

Definition sampleAuthConfigName (apKey : Meta.ObjectKey) : string :=
  "ap-" +:+ Meta.KeyNamespace apKey +:+ "-" +:+ Meta.KeyName apKey.

Definition toystore : AuthPolicy :=
  {| ObjectMeta :=
       {| Meta.Name := "toystore"; Meta.Namespace := "default";
          Meta.UID := "5c1e"; Meta.Generation := 2;
          Meta.DeletionTimestamp := None; Meta.Labels := ∅;
          Meta.OwnerReferences := [] |};
     Spec := {| TargetRef :=
                  {| TargetGroup := "gateway.networking.k8s.io";
                     TargetKind := "HTTPRoute";
                     TargetName := "toystore" |} |};
     Status := {| Conditions := []; ObservedGeneration := 1 |} |}.

(** An API server that holds a ready AuthConfig and answers every status
    update with the given error. *)
Definition serverAnswering (updateErr : option error) : AuthPolicyReconciler :=
  {| GetResource := λ _, ({| Ready := true |}, None);
     StatusUpdate := λ _, updateErr |}.

Definition theConflict : error :=
  StatusError StatusReasonConflict
    "Operation cannot be fulfilled on authpolicies.kuadrant.io: the object has been modified".

Definition theTimeout : error :=
  StatusError StatusReasonTimeout "request timed out".

Example toystore_status :
  calculateStatus sampleNow toystore None true
  = {| Conditions :=
         [ {| Meta.Type_ := "Available"; Meta.Status := Meta.ConditionTrue;
              Meta.ObservedGeneration := 0;
              Meta.LastTransitionTime := sampleNow;
              Meta.Reason := "HTTPRouteProtected";
              Meta.Message := "HTTPRoute is protected" |} ];
       ObservedGeneration := 1 |}.
Proof. reflexivity. Qed.

Lemma reconcileStatus_write_guard_witness :
  let pass :=
    reconcileStatus sampleNow sampleAuthConfigName
      EqualsIgnoringObservedGeneration (serverAnswering None) toystore None in
  ∃ ap' res,
    statusWrites (trace pass) = [ap']
    ∧ result pass = Ok (ap', res)
    ∧ ObjectMeta ap' = ObjectMeta toystore
    ∧ Spec ap' = Spec toystore
    ∧ Conditions (Status ap')
      = Conditions (calculateStatus sampleNow toystore None true)
    ∧ ObservedGeneration (Status ap') = 2
    ∧ ObservedGeneration (Status ap') = Generation ap'.
Proof.
  exact (reconcileStatus_write_guard sampleNow sampleAuthConfigName
           EqualsIgnoringObservedGeneration (serverAnswering None) toystore
           None true eq_refl).
Defined.

Lemma reconcileStatus_update_failure_witness :
  let written :=
    {| ObjectMeta := ObjectMeta toystore; Spec := Spec toystore;
       Status :=
         {| Conditions :=
              Conditions (calculateStatus sampleNow toystore None true);
            ObservedGeneration := 2 |} |} in
  result (reconcileStatus sampleNow sampleAuthConfigName
            EqualsIgnoringObservedGeneration
            (serverAnswering (Some theConflict)) toystore None)
  = Ok (written, ({| Requeue := true |}, None))
  ∧ result (reconcileStatus sampleNow sampleAuthConfigName
              EqualsIgnoringObservedGeneration
              (serverAnswering (Some theTimeout)) toystore None)
    = Ok (written,
          ({| Requeue := false |},
           Some (Wrapped "failed to update status: " theTimeout))).
Proof.
  split.
  - refine (reconcileStatus_update_failure sampleNow sampleAuthConfigName
              EqualsIgnoringObservedGeneration
              (serverAnswering (Some theConflict)) toystore None _ theConflict
              _ eq_refl).
    vm_compute. set_solver.
  - refine (reconcileStatus_update_failure sampleNow sampleAuthConfigName
              EqualsIgnoringObservedGeneration
              (serverAnswering (Some theTimeout)) toystore None _ theTimeout
              _ eq_refl).
    vm_compute. set_solver.
Defined.

(** The sample policy once its status has been reported, with a condition
    of another controller beside "Available". *)
Definition enforced : Meta.Condition :=
  {| Meta.Type_ := "Enforced"; Meta.Status := Meta.ConditionTrue;
     Meta.ObservedGeneration := 1;
     Meta.LastTransitionTime := Meta.TimeAt 1600000000;
     Meta.Reason := "Enforced";
     Meta.Message := "AuthPolicy has been successfully enforced" |}.

Definition toystoreReported : AuthPolicy :=
  {| ObjectMeta := ObjectMeta toystore;
     Spec := Spec toystore;
     Status :=
       {| Conditions :=
            [ enforced;
              {| Meta.Type_ := "Available"; Meta.Status := Meta.ConditionTrue;
                 Meta.ObservedGeneration := 0;
                 Meta.LastTransitionTime := Meta.TimeAt 1600000000;
                 Meta.Reason := "HTTPRouteProtected";
                 Meta.Message := "HTTPRoute is protected" |} ];
          ObservedGeneration := 1 |} |}.

Definition notFound : error :=
  StatusError StatusReasonNotFound "authconfigs.authorino.kuadrant.io not found".

Definition serverWithoutAuthConfig : AuthPolicyReconciler :=
  {| GetResource := λ _, ({| Ready := false |}, Some notFound);
     StatusUpdate := λ _, None |}.

Lemma calculateStatus_keeps_other_conditions_witness :
  let newStatus :=
    calculateStatus sampleNow toystoreReported (Some theTimeout) true in
  Meta.FindStatusCondition (Conditions newStatus) "Enforced" = Some enforced
  ∧ length (Conditions newStatus) = 2%nat
  ∧ ObservedGeneration newStatus = 1.
Proof.
  refine (calculateStatus_keeps_other_conditions sampleNow toystoreReported
            (Some theTimeout) true "Enforced" _).
  discriminate.
Defined.

Lemma reconcileStatus_fetch_failure_witness :
  reconcileStatus sampleNow sampleAuthConfigName EqualsIgnoringObservedGeneration
    serverWithoutAuthConfig toystore None
  = ([ Log (Info "" 1 "Reconciling AuthPolicy status"
              [("spec error", VError None)]);
       GetResourceCall
         {| Meta.KeyNamespace := "default";
            Meta.KeyName := "ap-default-toystore" |} ],
     Ok (toystore, ({| Requeue := false |}, Some notFound))).
Proof.
  exact (reconcileStatus_fetch_failure sampleNow sampleAuthConfigName
           EqualsIgnoringObservedGeneration serverWithoutAuthConfig toystore
           {| Ready := false |} notFound eq_refl).
Defined.

Lemma reconcileStatus_second_pass_writes_nothing_witness :
  let written :=
    {| ObjectMeta := ObjectMeta toystore; Spec := Spec toystore;
       Status :=
         {| Conditions :=
              Conditions (calculateStatus sampleNow toystore None true);
            ObservedGeneration := 2 |} |} in
  statusWrites
    (trace (reconcileStatus (Meta.TimeAt 1700000600) sampleAuthConfigName
              EqualsIgnoringObservedGeneration
              (serverAnswering (Some theConflict)) written None)) = []
  ∧ result (reconcileStatus (Meta.TimeAt 1700000600) sampleAuthConfigName
              EqualsIgnoringObservedGeneration
              (serverAnswering (Some theConflict)) written None)
    = Ok (written, ({| Requeue := false |}, None)).
Proof.
  refine (reconcileStatus_second_pass_writes_nothing sampleNow
            (Meta.TimeAt 1700000600) sampleAuthConfigName
            EqualsIgnoringObservedGeneration (serverAnswering None)
            (serverAnswering (Some theConflict)) toystore _ None true
            (λ status, bool_decide_eq_true_2 _ eq_refl) eq_refl _ eq_refl).
  vm_compute. apply list_elem_of_singleton. reflexivity.
Defined.

End AuthPolicyStatus.

(** ** Spec merge mutator ([pkg/kuadranttools/limitador_tools.go]) *)

Module KuadrantTools.

Section Limitador.

(** The field types of the Limitador API are declared by the
    limitador-operator and by k8s.io/api; the mutator copies and compares
    them whole, so they are taken as they come.  [reflect.DeepEqual] on them
    is structural equality of the values behind the pointers, which is
    equality of the embedded values. *)
Context {corev1_Affinity PodDisruptionBudgetType corev1_ResourceRequirements
         StorageType ListenerType RateLimitHeadersType TelemetryType RateLimit
         LimitadorStatus : Type}.
Context `{!EqDecision corev1_Affinity, !EqDecision PodDisruptionBudgetType,
          !EqDecision corev1_ResourceRequirements, !EqDecision StorageType}.

(** [limitadorv1alpha1.LimitadorSpec]: every field but [Limits] is a
    pointer. *)
Record LimitadorSpec : Type := mkLimitadorSpec {
  Affinity : option corev1_Affinity;
  Replicas : option Z;
  Version : option string;
  Listener : option ListenerType;
  PodDisruptionBudget : option PodDisruptionBudgetType;
  Storage : option StorageType;
  RateLimitHeaders : option RateLimitHeadersType;
  Telemetry : option TelemetryType;
  Limits : list RateLimit;
  ResourceRequirements : option corev1_ResourceRequirements;
}.

(** [limitadorv1alpha1.Limitador] *)
Record Limitador : Type := mkLimitador {
  TypeMeta : Meta.TypeMeta;
  ObjectMeta : Meta.ObjectMeta;
  Spec : LimitadorSpec;
  Status : LimitadorStatus;
}.

(** [v1beta1.LimitadorSpec] of the Kuadrant API: the fields the operator
    manages.  (Its field names carry a quote here, the two structs sharing
    them.) *)
Record v1beta1_LimitadorSpec : Type := mkSubSet {
  Affinity' : option corev1_Affinity;
  Replicas' : option Z;
  ResourceRequirements' : option corev1_ResourceRequirements;
  PodDisruptionBudget' : option PodDisruptionBudgetType;
  Storage' : option StorageType;
}.

#[global] Instance v1beta1_LimitadorSpec_eq_dec : EqDecision v1beta1_LimitadorSpec.
Proof. solve_decision. Defined.

(** A [client.Object]: a [*limitadorv1alpha1.Limitador], or a pointer to
    some other API type, of which the mutator only prints the Go type. *)
Inductive ClientObject : Type :=
| LimitadorObject (l : Limitador)
| OtherObject (goType : string) (meta : Meta.ObjectMeta).

(** [fmt.Sprintf("%T", obj)] *)
Definition goTypeOf (obj : ClientObject) : string :=
  match obj with
  | LimitadorObject _ => "*v1alpha1.Limitador"
  | OtherObject goType _ => goType
  end.

(** [reflect.DeepEqual] on two subsets. *)
Definition DeepEqual (a b : v1beta1_LimitadorSpec) : bool := bool_decide (a = b).

Definition limitadorSpecSubSet (spec : LimitadorSpec) : v1beta1_LimitadorSpec :=
  {| Affinity' := Affinity spec;
     PodDisruptionBudget' := PodDisruptionBudget spec;
     Replicas' := Replicas spec;
     ResourceRequirements' := ResourceRequirements spec;
     Storage' := Storage spec |}.

(** [LimitadorMutator] returns [(bool, error)] and writes through
    [existingObj]; the object as the call leaves it comes first in the
    result. *)
Definition LimitadorMutator (existingObj desiredObj : ClientObject)
    : ClientObject * (bool * option error) :=
  let update := false in
  match existingObj with
  | OtherObject _ _ =>
      (existingObj,
       (false,
        Some (ErrorString (goTypeOf existingObj
                           +:+ " is not a *limitadorv1alpha1.Limitador"))))
  | LimitadorObject existing =>
      match desiredObj with
      | OtherObject _ _ =>
          (existingObj,
           (false,
            Some (ErrorString (goTypeOf existingObj
                               +:+ " is not a *limitadorv1alpha1.Limitador"))))
      | LimitadorObject desired =>
          let existingSpec := limitadorSpecSubSet (Spec existing) in
          let desiredSpec := limitadorSpecSubSet (Spec desired) in
          if negb (DeepEqual existingSpec desiredSpec) then
            let update := true in
            let spec := Spec existing in
            let spec :=
              {| Affinity := Affinity (Spec desired);
                 Replicas := Replicas (Spec desired);
                 Version := Version spec;
                 Listener := Listener spec;
                 PodDisruptionBudget := PodDisruptionBudget (Spec desired);
                 Storage := Storage (Spec desired);
                 RateLimitHeaders := RateLimitHeaders spec;
                 Telemetry := Telemetry spec;
                 Limits := Limits spec;
                 ResourceRequirements := ResourceRequirements (Spec desired) |} in
            (LimitadorObject
               {| TypeMeta := TypeMeta existing;
                  ObjectMeta := ObjectMeta existing;
                  Spec := spec;
                  Status := Status existing |},
             (update, None))
          else (existingObj, (update, None))
      end
  end.

(** *** Properties *)

(** Two specs have the same managed subset exactly when they agree on the
    five allow-listed fields. *)
Lemma limitadorSpecSubSet_eq (a b : LimitadorSpec) :
  limitadorSpecSubSet a = limitadorSpecSubSet b
  ↔ Affinity a = Affinity b
    ∧ PodDisruptionBudget a = PodDisruptionBudget b
    ∧ Replicas a = Replicas b
    ∧ ResourceRequirements a = ResourceRequirements b
    ∧ Storage a = Storage b.
Proof.
  unfold limitadorSpecSubSet. split.
  - intros [= -> -> -> -> ->]. repeat split.
  - intros (-> & -> & -> & -> & ->). reflexivity.
Qed.

(** C3. For every pair of Limitador objects the mutator returns no error
    and leaves a Limitador whose type and object metadata, status and
    out-of-allow-list spec fields are those of the existing object.  When the
    two objects agree on Affinity, PodDisruptionBudget, Replicas,
    ResourceRequirements and Storage, whatever else differs, it returns
    [changed = false] and the existing object is unchanged as a whole; when
    they differ on one of the five it returns [changed = true] and the five
    fields are the desired ones. *)
Theorem LimitadorMutator_frame (existing desired : Limitador) :
  ∃ existing' changed,
    LimitadorMutator (LimitadorObject existing) (LimitadorObject desired)
    = (LimitadorObject existing', (changed, None))
    ∧ (TypeMeta existing' = TypeMeta existing
       ∧ ObjectMeta existing' = ObjectMeta existing
       ∧ Status existing' = Status existing
       ∧ Version (Spec existing') = Version (Spec existing)
       ∧ Listener (Spec existing') = Listener (Spec existing)
       ∧ RateLimitHeaders (Spec existing') = RateLimitHeaders (Spec existing)
       ∧ Telemetry (Spec existing') = Telemetry (Spec existing)
       ∧ Limits (Spec existing') = Limits (Spec existing))
    ∧ if bool_decide (Affinity (Spec existing) = Affinity (Spec desired)
                      ∧ PodDisruptionBudget (Spec existing)
                        = PodDisruptionBudget (Spec desired)
                      ∧ Replicas (Spec existing) = Replicas (Spec desired)
                      ∧ ResourceRequirements (Spec existing)
                        = ResourceRequirements (Spec desired)
                      ∧ Storage (Spec existing) = Storage (Spec desired))
      then changed = false ∧ existing' = existing
      else changed = true
           ∧ Affinity (Spec existing') = Affinity (Spec desired)
           ∧ PodDisruptionBudget (Spec existing')
             = PodDisruptionBudget (Spec desired)
           ∧ Replicas (Spec existing') = Replicas (Spec desired)
           ∧ ResourceRequirements (Spec existing')
             = ResourceRequirements (Spec desired)
           ∧ Storage (Spec existing') = Storage (Spec desired).
Proof.
  unfold LimitadorMutator, DeepEqual.
  destruct (decide (Affinity (Spec existing) = Affinity (Spec desired)
                    ∧ PodDisruptionBudget (Spec existing)
                      = PodDisruptionBudget (Spec desired)
                    ∧ Replicas (Spec existing) = Replicas (Spec desired)
                    ∧ ResourceRequirements (Spec existing)
                      = ResourceRequirements (Spec desired)
                    ∧ Storage (Spec existing) = Storage (Spec desired)))
    as [Hfive|Hfive].
  - rewrite (bool_decide_eq_true_2 _ Hfive).
    rewrite (bool_decide_eq_true_2
               (limitadorSpecSubSet (Spec existing)
                = limitadorSpecSubSet (Spec desired)))
      by (apply limitadorSpecSubSet_eq; exact Hfive).
    simpl. exists existing, false. repeat split.
  - rewrite (bool_decide_eq_false_2 _ Hfive).
    rewrite (bool_decide_eq_false_2
               (limitadorSpecSubSet (Spec existing)
                = limitadorSpecSubSet (Spec desired)))
      by (rewrite limitadorSpecSubSet_eq; exact Hfive).
    simpl. eexists _, true. split; [reflexivity|]. repeat split.
Qed.

(** A desired object that differs from the existing one outside the
    allow-list only is a no-op. *)
Corollary LimitadorMutator_out_of_list (existing desired : Limitador) :
  Affinity (Spec desired) = Affinity (Spec existing) →
  PodDisruptionBudget (Spec desired) = PodDisruptionBudget (Spec existing) →
  Replicas (Spec desired) = Replicas (Spec existing) →
  ResourceRequirements (Spec desired) = ResourceRequirements (Spec existing) →
  Storage (Spec desired) = Storage (Spec existing) →
  LimitadorMutator (LimitadorObject existing) (LimitadorObject desired)
  = (LimitadorObject existing, (false, None)).
Proof.
  intros Ha Hp Hr Hq Hs. unfold LimitadorMutator, DeepEqual.
  rewrite bool_decide_eq_true_2; [reflexivity|].
  apply limitadorSpecSubSet_eq. auto.
Qed.

(** An object of another type is refused, with an error and no change. *)
Lemma LimitadorMutator_type_mismatch goType meta desiredObj :
  ∃ err,
    LimitadorMutator (OtherObject goType meta) desiredObj
    = (OtherObject goType meta, (false, Some err)).
Proof. eexists. reflexivity. Qed.

(** *** Further properties *)

(** X6. When either object is not a Limitador the mutator fails: it returns
    [false] and an error and does not touch the existing object.  In both
    cases the error text names the Go type of the existing object. *)
Theorem LimitadorMutator_refuses_other_types (existingObj desiredObj : ClientObject) :
  (∀ l, existingObj ≠ LimitadorObject l) ∨ (∀ l, desiredObj ≠ LimitadorObject l) →
  LimitadorMutator existingObj desiredObj
  = (existingObj,
     (false,
      Some (ErrorString (goTypeOf existingObj
                         +:+ " is not a *limitadorv1alpha1.Limitador")))).
Proof.
  intros Hother. unfold LimitadorMutator.
  destruct existingObj as [existing|goType meta]; [|reflexivity].
  destruct desiredObj as [desired|goType meta]; [|reflexivity].
  destruct Hother as [Hother|Hother];
    [contradiction (Hother existing) | contradiction (Hother desired)];
    reflexivity.
Qed.

(** X7. The mutator converges in one step: the object it leaves has the
    desired allow-listed subset, and run on it again with the same desired
    object it reports no change and leaves it as it is. *)
Theorem LimitadorMutator_converges (existing desired : Limitador) :
  ∃ existing' changed,
    LimitadorMutator (LimitadorObject existing) (LimitadorObject desired)
    = (LimitadorObject existing', (changed, None))
    ∧ limitadorSpecSubSet (Spec existing') = limitadorSpecSubSet (Spec desired)
    ∧ LimitadorMutator (LimitadorObject existing') (LimitadorObject desired)
      = (LimitadorObject existing', (false, None)).
Proof.
  unfold LimitadorMutator at 1. unfold DeepEqual.
  case_bool_decide as Hsub; simpl.
  - exists existing, false. split; [reflexivity|]. split; [exact Hsub|].
    unfold LimitadorMutator, DeepEqual.
    rewrite bool_decide_eq_true_2 by exact Hsub. reflexivity.
  - eexists _, true. split; [reflexivity|].
    split; [reflexivity|].
    unfold LimitadorMutator, DeepEqual.
    rewrite bool_decide_eq_true_2 by reflexivity. reflexivity.
Qed.

(** X8. Of the desired object the mutator reads the allow-listed subset and
    nothing else: two desired objects with the same subset give the same
    result and leave the same object. *)
Theorem LimitadorMutator_reads_subset_only (existing desired desired' : Limitador) :
  limitadorSpecSubSet (Spec desired) = limitadorSpecSubSet (Spec desired') →
  LimitadorMutator (LimitadorObject existing) (LimitadorObject desired)
  = LimitadorMutator (LimitadorObject existing) (LimitadorObject desired').
Proof.
  intros Hsub. unfold LimitadorMutator, DeepEqual. rewrite <- Hsub.
  apply limitadorSpecSubSet_eq in Hsub as (Ha & Hp & Hr & Hq & Hs).
  rewrite Ha, Hp, Hr, Hq, Hs. reflexivity.
Qed.

End Limitador.

(** *** A concrete pair

    A Limitador with one replica whose version was set by another agent, and
    the operator's desired objects for it. *)

Definition sampleMeta : Meta.ObjectMeta :=
  {| Meta.Name := "limitador"; Meta.Namespace := "kuadrant-system";
     Meta.UID := "77aa"; Meta.Generation := 4;
     Meta.DeletionTimestamp := None; Meta.Labels := ∅;
     Meta.OwnerReferences := [] |}.

Definition sampleLimitador (replicas : Z) (version : string)
    : @Limitador string string string string string string string string () :=
  {| TypeMeta := {| Meta.Kind := "Limitador";
                    Meta.APIVersion := "limitador.kuadrant.io/v1alpha1" |};
     ObjectMeta := sampleMeta;
     Spec := {| Affinity := None; Replicas := Some replicas;
                Version := Some version; Listener := None;
                PodDisruptionBudget := None; Storage := Some "redis";
                RateLimitHeaders := None; Telemetry := None; Limits := [];
                ResourceRequirements := None |};
     Status := () |}.

Example only_version_differs :
  LimitadorMutator (LimitadorObject (sampleLimitador 1 "v1.4"))
                   (LimitadorObject (sampleLimitador 1 "latest"))
  = (LimitadorObject (sampleLimitador 1 "v1.4"), (false, None)).
Proof. reflexivity. Qed.

Example replicas_differ :
  LimitadorMutator (LimitadorObject (sampleLimitador 1 "v1.4"))
                   (LimitadorObject (sampleLimitador 3 "latest"))
  = (LimitadorObject (sampleLimitador 3 "v1.4"), (true, None)).
Proof. reflexivity. Qed.

Lemma LimitadorMutator_refuses_other_types_witness :
  LimitadorMutator (LimitadorObject (sampleLimitador 1 "v1.4"))
                   (OtherObject "*v1.ConfigMap" sampleMeta)
  = (LimitadorObject (sampleLimitador 1 "v1.4"),
     (false,
      Some (ErrorString
              "*v1alpha1.Limitador is not a *limitadorv1alpha1.Limitador"))).
Proof.
  refine (LimitadorMutator_refuses_other_types
            (LimitadorObject (sampleLimitador 1 "v1.4"))
            (OtherObject "*v1.ConfigMap" sampleMeta) _).
  right. discriminate.
Defined.

Lemma LimitadorMutator_reads_subset_only_witness :
  LimitadorMutator (LimitadorObject (sampleLimitador 1 "v1.4"))
                   (LimitadorObject (sampleLimitador 3 "latest"))
  = LimitadorMutator (LimitadorObject (sampleLimitador 1 "v1.4"))
                     (LimitadorObject (sampleLimitador 3 "v2.0")).
Proof.
  exact (LimitadorMutator_reads_subset_only (sampleLimitador 1 "v1.4")
           (sampleLimitador 3 "latest") (sampleLimitador 3 "v2.0") eq_refl).
Defined.

End KuadrantTools.

(** ** The state-of-the-world controller

    The API types the controller handles, the interfaces of the policy
    machinery it is written against, and then its three reconcile functions
    and the workflow that composes them. *)

(** [kuadrantv1beta1.Kuadrant], as far as the controller reads it. *)
Module Kuadrant.
Record t : Type := mk {
  TypeMeta : Meta.TypeMeta;
  ObjectMeta : Meta.ObjectMeta;
}.
End Kuadrant.

(** [corev1.ConfigMap] *)
Module ConfigMap.
Record t : Type := mk {
  TypeMeta : Meta.TypeMeta;
  ObjectMeta : Meta.ObjectMeta;
  Data : gmap string string;
}.
End ConfigMap.

(** [authorinov1beta1.Authorino] of the authorino-operator, as far as the
    controller fills it. *)
Module Authorino.
Record Tls : Type := mkTls {
  Enabled : option bool;
}.
Record Listener : Type := mkListener {
  ListenerTls : Tls;
}.
Record OIDCServer : Type := mkOIDCServer {
  OIDCServerTls : Tls;
}.
Record AuthorinoSpec : Type := mkAuthorinoSpec {
  ClusterWide : bool;
  SupersedingHostSubsets : bool;
  SpecListener : Listener;
  SpecOIDCServer : OIDCServer;
}.
Record t : Type := mk {
  TypeMeta : Meta.TypeMeta;
  ObjectMeta : Meta.ObjectMeta;
  Spec : AuthorinoSpec;
}.
End Authorino.

Module Controller.

(** [controller.EventType] *)
Inductive EventType : Type :=
| CreateEvent
| UpdateEvent
| DeleteEvent.

#[global] Instance EventType_eq_dec : EqDecision EventType.
Proof. solve_decision. Defined.

(** [EventType.String] *)
Definition EventType_String (t : EventType) : string :=
  match t with
  | CreateEvent => "create"
  | UpdateEvent => "update"
  | DeleteEvent => "delete"
  end.

(** A [controller.Object]: a pointer to a typed API object.  The controller
    distinguishes three Go types; every other type is read through its type
    and object metadata only. *)
Inductive Object : Type :=
| KuadrantObject (k : Kuadrant.t)
| ConfigMapObject (cm : ConfigMap.t)
| AuthorinoObject (a : Authorino.t)
| OtherObject (typeMeta : Meta.TypeMeta) (objectMeta : Meta.ObjectMeta).

Definition TypeMetaOf (o : Object) : Meta.TypeMeta :=
  match o with
  | KuadrantObject k => Kuadrant.TypeMeta k
  | ConfigMapObject cm => ConfigMap.TypeMeta cm
  | AuthorinoObject a => Authorino.TypeMeta a
  | OtherObject tm _ => tm
  end.

Definition ObjectMetaOf (o : Object) : Meta.ObjectMeta :=
  match o with
  | KuadrantObject k => Kuadrant.ObjectMeta k
  | ConfigMapObject cm => ConfigMap.ObjectMeta cm
  | AuthorinoObject a => Authorino.ObjectMeta a
  | OtherObject _ om => om
  end.

(** [obj.GetObjectKind().GroupVersionKind().Kind], [obj.GetNamespace()],
    [obj.GetName()] *)
Definition GetKind (o : Object) : string := Meta.Kind (TypeMetaOf o).
Definition GetNamespace (o : Object) : string := Meta.Namespace (ObjectMetaOf o).
Definition GetName (o : Object) : string := Meta.Name (ObjectMetaOf o).

(** [controller.ResourceEvent]; a [nil] object is [None]. *)
Module ResourceEvent.
Record t : Type := mk {
  Kind : Meta.GroupKind;
  EventType : EventType;
  OldObject : option Object;
  NewObject : option Object;
}.
End ResourceEvent.

(** [controller.ResourceEventMatcher]: the two pointer fields the controller
    sets; a [nil] field matches everything. *)
Module ResourceEventMatcher.
Record t : Type := mk {
  Kind : option Meta.GroupKind;
  EventType : option EventType;
}.
End ResourceEventMatcher.

(** A [machinery.Object], an item of the topology, by its Go type:
    [*kuadrantv1beta1.Kuadrant] implements the interface itself, an object of
    a plain API type is wrapped in a [*controller.RuntimeObject], and the
    machinery has further implementations of its own. *)
Inductive Item : Type :=
| KuadrantItem (k : Kuadrant.t)
| RuntimeObject (object : Object)
| OtherItem (typeMeta : Meta.TypeMeta) (objectMeta : Meta.ObjectMeta).

(** [item.GroupVersionKind().Kind], [item.GetNamespace()], [item.GetName()] *)
Definition ItemKind (item : Item) : string :=
  match item with
  | KuadrantItem k => Meta.Kind (Kuadrant.TypeMeta k)
  | RuntimeObject o => GetKind o
  | OtherItem tm _ => Meta.Kind tm
  end.

Definition ItemNamespace (item : Item) : string :=
  match item with
  | KuadrantItem k => Meta.Namespace (Kuadrant.ObjectMeta k)
  | RuntimeObject o => GetNamespace o
  | OtherItem _ om => Meta.Namespace om
  end.

Definition ItemName (item : Item) : string :=
  match item with
  | KuadrantItem k => Meta.Name (Kuadrant.ObjectMeta k)
  | RuntimeObject o => GetName o
  | OtherItem _ om => Meta.Name om
  end.

(** [*machinery.Topology], read-only for a pass, by what the controller asks
    of it: [topology.Objects().Roots()], [topology.Objects().Items()] (the
    map's values, in the order the call returned them) and
    [topology.ToDot()]. *)
Module Topology.
Record t : Type := mk {
  Roots : list Item;
  Items : list Item;
  ToDot : string;
}.
End Topology.

(** [topology.Objects().Items(filters...)] *)
Definition ItemsWhere (topology : Topology.t) (f : Item → bool) : list Item :=
  List.filter f (Topology.Items topology).

(** [*unstructured.Unstructured], identified with the typed object it
    encodes. *)
Inductive Unstructured : Type :=
| UnstructuredOf (object : Object).

(** The resources the controller writes to. *)
Inductive Resource : Type :=
| ConfigMapsResource
| AuthorinoResource.

#[global] Instance Resource_eq_dec : EqDecision Resource.
Proof. solve_decision. Defined.

(** [*dynamic.DynamicClient], by the API server's answers:
    [Resource(res).Namespace(ns).Create(ctx, obj, opts)] and the same for
    [Update] return an object, which the controller drops, and an error or
    nil.  The object handed over is a pointer and can be [nil]. *)
Module DynamicClient.
Record t : Type := mk {
  Create : Resource → string → option Unstructured → option error;
  Update : Resource → string → option Unstructured → option error;
}.
End DynamicClient.

(** What a reconcile function does to the outside. *)
Inductive Effect : Type :=
| Log (entry : LogEntry)
| CreateCall (resource : Resource) (namespace : string)
    (obj : option Unstructured)
| UpdateCall (resource : Resource) (namespace : string)
    (obj : option Unstructured).

Definition isCreateCall (e : Effect) : bool :=
  match e with CreateCall _ _ _ => true | _ => false end.

Definition isWrite (e : Effect) : bool :=
  match e with CreateCall _ _ _ | UpdateCall _ _ _ => true | Log _ => false end.

Definition isErrorLog (e : Effect) : bool :=
  match e with Log entry => isErrorEntry entry | _ => false end.

(** The create calls, the update calls and all the API writes of a trace. *)
Definition creates (tr : list Effect) : list Effect := List.filter isCreateCall tr.
Definition writes (tr : list Effect) : list Effect := List.filter isWrite tr.
Definition errorLogs (tr : list Effect) : list Effect := List.filter isErrorLog tr.

(** The first create call of a trace with what follows it. *)
Fixpoint afterFirstCreate (tr : list Effect)
    : option (Resource * string * option Unstructured * list Effect) :=
  match tr with
  | [] => None
  | CreateCall resource namespace obj :: post =>
      Some (resource, namespace, obj, post)
  | _ :: tr' => afterFirstCreate tr'
  end.

Lemma afterFirstCreate_app pre tr :
  creates pre = [] → afterFirstCreate (pre ++ tr) = afterFirstCreate tr.
Proof.
  induction pre as [|e pre IH]; [reflexivity|].
  destruct e; cbn; [exact IH | discriminate | exact IH].
Qed.

Lemma writes_app tr1 tr2 : writes (tr1 ++ tr2) = writes tr1 ++ writes tr2.
Proof. apply List.filter_app. Qed.

Lemma creates_app tr1 tr2 : creates (tr1 ++ tr2) = creates tr1 ++ creates tr2.
Proof. apply List.filter_app. Qed.

Lemma errorLogs_app tr1 tr2 :
  errorLogs (tr1 ++ tr2) = errorLogs tr1 ++ errorLogs tr2.
Proof. apply List.filter_app. Qed.

(** The context of a pass, by what is read from it: whether the logger it
    carries records at verbosity 1 ([logger.V(1).Enabled()]). *)
Module Context.
Record t : Type := mk {
  V1Enabled : bool;
}.
End Context.

(** [controller.ReconcileFunc] *)
Definition ReconcileFunc : Type :=
  Context.t → list ResourceEvent.t → Topology.t → option error → M Effect ().

(** [lo.FilterMap]: the callback's [(value, true)] is [Some value], its
    [(zero, false)] is [None]. *)
Fixpoint FilterMapFrom {A B} (index : nat) (collection : list A)
    (callback : A → nat → M Effect (option B)) : M Effect (list B) :=
  match collection with
  | [] => mret []
  | item :: rest =>
      r ← callback item index;
      result ← FilterMapFrom (S index) rest callback;
      mret (match r with Some b => b :: result | None => result end)
  end.

Definition FilterMap {A B} (collection : list A)
    (callback : A → nat → M Effect (option B)) : M Effect (list B) :=
  FilterMapFrom 0 collection callback.

(** [controller.Workflow] *)
Module Workflow.
Record t : Type := mk {
  Precondition : option ReconcileFunc;
  Tasks : list ReconcileFunc;
}.

(** Modelled from the spec: [Workflow.Run] of the policy machinery, which is
    not under src/ ("If Precondition is set, invoke it with the same
    arguments"; "Invoke every Task in list order with the same (ctx, events,
    topology, err) tuple"). *)
Definition Run (d : t) : ReconcileFunc :=
  λ ctx resourceEvents topology err,
    match Precondition d with
    | Some precondition => precondition ctx resourceEvents topology err
    | None => mret ()
    end;;
    forRange (Tasks d) (λ f, f ctx resourceEvents topology err).
End Workflow.

(** [controller.Subscription] *)
Module Subscription.
Record t : Type := mk {
  ReconcileFunc : ReconcileFunc;
  Events : list ResourceEventMatcher.t;
}.

(** An event has the shape a matcher asks for. *)
Definition matches (m : ResourceEventMatcher.t) (event : ResourceEvent.t) : bool :=
  match ResourceEventMatcher.Kind m with
  | Some kind => bool_decide (kind = ResourceEvent.Kind event)
  | None => true
  end
  && match ResourceEventMatcher.EventType m with
     | Some eventType => bool_decide (eventType = ResourceEvent.EventType event)
     | None => true
     end.

(** Modelled from the spec: [Subscription.Reconcile] of the policy machinery,
    which is not under src/ ("the dispatcher invokes reconcileFunction(ctx,
    events, topology, err) only when an incoming event matches at least one
    declared matcher"; matching is "a pure function over enumerated (Kind,
    EventType) pairs"). *)
Definition Reconcile (s : t) : Controller.ReconcileFunc :=
  λ ctx resourceEvents topology err,
    if existsb (λ event, existsb (λ m, matches m event) (Events s)) resourceEvents
    then ReconcileFunc s ctx resourceEvents topology err
    else mret ().
End Subscription.

End Controller.

(** *** Event recorder *)

Module EventLogger.

Record t : Type := mk { }.

Definition NewEventLogger : t := mk.

Section Log.

(** [cmp.Diff] of go-cmp, a report of how two values differ. *)
Variable Diff : option Controller.Object → option Controller.Object → string.

Import Controller.

(** The key/value pairs of an event's log line (lines 268-276). *)
Definition values (ctx : Context.t) (event : ResourceEvent.t) (obj : Object)
    : list (string * LogValue) :=
  let values :=
    [ ("type", VString (EventType_String (ResourceEvent.EventType event)));
      ("kind", VString (GetKind obj));
      ("namespace", VString (GetNamespace obj));
      ("name", VString (GetName obj)) ] in
  if bool_decide (ResourceEvent.EventType event = UpdateEvent)
     && Context.V1Enabled ctx
  then values ++ [ ("diff", VString (Diff (ResourceEvent.OldObject event)
                                          (ResourceEvent.NewObject event))) ]
  else values.

(** One turn of the loop of [Log].  [obj] is an interface value: calling a
    method on it when it is [nil] panics. *)
Definition logEvent (ctx : Context.t) (err : option error)
    (event : ResourceEvent.t) : M Effect () :=
  (* log the event *)
  let obj := ResourceEvent.OldObject event in
  let obj :=
    match obj with
    | None => ResourceEvent.NewObject event
    | Some _ => obj
    end in
  match obj with
  | None => panic "invalid memory address or nil pointer dereference"
  | Some obj =>
      emit (Log (Info "event logger" 0 "new event" (values ctx event obj)));;
      match err with
      | Some err =>
          emit (Log (ErrorEntry "event logger" err "error passed to reconcile" []))
      | None => mret ()
      end
  end.

Definition Log (e : t) : ReconcileFunc :=
  λ ctx resourceEvents _ err, forRange resourceEvents (logEvent ctx err).

(** *** Properties *)

(** The object an event is described by: the old one when present, the new
    one otherwise. *)
Definition describedBy (event : ResourceEvent.t) : option Object :=
  match ResourceEvent.OldObject event with
  | Some old => Some old
  | None => ResourceEvent.NewObject event
  end.

(** The log entries of one event: its line, then the upstream error if there
    is one. *)
Definition entriesOf (ctx : Context.t) (err : option error)
    (event : ResourceEvent.t) (obj : Object) : list Effect :=
  Controller.Log (Info "event logger" 0 "new event" (values ctx event obj))
  :: match err with
     | Some err =>
         [ Controller.Log
             (ErrorEntry "event logger" err "error passed to reconcile" []) ]
     | None => []
     end.

Definition isNewEvent (e : Effect) : bool :=
  match e with
  | Controller.Log (Info _ _ msg _) => String.eqb msg "new event"
  | _ => false
  end.

Lemma logEvent_described ctx err event obj :
  describedBy event = Some obj →
  logEvent ctx err event = (entriesOf ctx err event obj, Ok ()).
Proof.
  unfold describedBy, logEvent, entriesOf. intros Hobj.
  destruct (ResourceEvent.OldObject event) as [old|].
  - injection Hobj as <-. destruct err; reflexivity.
  - rewrite Hobj. destruct err; reflexivity.
Qed.

(** Without an object to describe it, an event makes the logger panic, and
    nothing is logged for it. *)
Lemma logEvent_nil ctx err event :
  describedBy event = None →
  ∃ msg, logEvent ctx err event = ([], Panic msg).
Proof.
  unfold describedBy, logEvent. intros Hobj.
  destruct (ResourceEvent.OldObject event); [discriminate|].
  rewrite Hobj. eexists; reflexivity.
Qed.

Lemma Log_described e ctx resourceEvents topology err objs :
  Forall2 (λ event obj, describedBy event = Some obj) resourceEvents objs →
  Log e ctx resourceEvents topology err
  = (concat (zip_with (entriesOf ctx err) resourceEvents objs), Ok ()).
Proof.
  unfold Log. induction 1 as [|event obj events objs Hobj _ IH]; [reflexivity|].
  simpl. rewrite (logEvent_described _ _ _ _ Hobj), IH.
  cbn. reflexivity.
Qed.

Lemma entries_count ctx err resourceEvents objs :
  length resourceEvents = length objs →
  let tr := concat (zip_with (entriesOf ctx err) resourceEvents objs) in
  length (List.filter isNewEvent tr) = length resourceEvents
  ∧ length (errorLogs tr)
    = match err with
      | Some _ => length resourceEvents
      | None => 0%nat
      end.
Proof.
  revert objs. induction resourceEvents as [|event events IH];
    intros [|obj objs] Hlen; try discriminate.
  - destruct err; split; reflexivity.
  - injection Hlen as Hlen. destruct (IH objs Hlen) as [IHn IHe].
    cbn zeta in *. unfold errorLogs in *.
    destruct err as [err|]; cbn; rewrite ?IHn, ?IHe; split; reflexivity.
Qed.

(** C10. On a batch in which every event carries an old or a new object,
    [Log] returns (it does not panic).  Each event is described by its old
    object when there is one and by its new object otherwise, and the trace
    is, event by event, one "new event" line carrying the event's type and
    that object's kind, namespace and name (and the diff of the two objects
    for an update event under verbose logging), followed by the upstream
    error when it is non-nil: one line per event, and the error once per
    event, so never on an empty batch. *)
Theorem Log_total (e : t) (ctx : Context.t)
    (resourceEvents : list ResourceEvent.t) (topology : Topology.t)
    (err : option error) :
  Forall (λ event, ResourceEvent.OldObject event ≠ None
                   ∨ ResourceEvent.NewObject event ≠ None) resourceEvents →
  ∃ objs,
    Forall2 (λ event obj,
               ResourceEvent.OldObject event = Some obj
               ∨ (ResourceEvent.OldObject event = None
                  ∧ ResourceEvent.NewObject event = Some obj))
            resourceEvents objs
    ∧ Log e ctx resourceEvents topology err
      = (concat
           (zip_with
              (λ event obj,
                 Controller.Log
                   (Info "event logger" 0 "new event"
                      ([ ("type",
                          VString
                            match ResourceEvent.EventType event with
                            | CreateEvent => "create"
                            | UpdateEvent => "update"
                            | DeleteEvent => "delete"
                            end);
                         ("kind", VString (Meta.Kind (TypeMetaOf obj)));
                         ("namespace", VString (Meta.Namespace (ObjectMetaOf obj)));
                         ("name", VString (Meta.Name (ObjectMetaOf obj))) ]
                       ++ match ResourceEvent.EventType event,
                                Context.V1Enabled ctx with
                          | UpdateEvent, true =>
                              [ ("diff",
                                 VString (Diff (ResourceEvent.OldObject event)
                                               (ResourceEvent.NewObject event))) ]
                          | _, _ => []
                          end))
                 :: match err with
                    | Some err =>
                        [ Controller.Log
                            (ErrorEntry "event logger" err
                               "error passed to reconcile" []) ]
                    | None => []
                    end)
              resourceEvents objs),
         Ok ())
    ∧ length (List.filter isNewEvent
                (trace (Log e ctx resourceEvents topology err)))
      = length resourceEvents
    ∧ length (errorLogs (trace (Log e ctx resourceEvents topology err)))
      = match err with
        | Some _ => length resourceEvents
        | None => 0%nat
        end.
Proof.
  intros Hsome.
  assert (Hobjs : ∃ objs,
             Forall2 (λ event obj, describedBy event = Some obj)
                     resourceEvents objs).
  { induction Hsome as [|event events Hev _ [objs IH]]; [exists []; constructor|].
    assert (Hd : ∃ obj, describedBy event = Some obj).
    { unfold describedBy.
      destruct (ResourceEvent.OldObject event) as [old|]; [eauto|].
      destruct (ResourceEvent.NewObject event) as [new|]; [eauto|].
      destruct Hev as [Hev|Hev]; contradiction. }
    destruct Hd as [obj Hd]. exists (obj :: objs). constructor; assumption. }
  destruct Hobjs as [objs Hobjs]. exists objs.
  pose proof (Log_described e ctx resourceEvents topology err objs Hobjs) as Hrun.
  pose proof (Forall2_length _ _ _ Hobjs) as Hlen.
  destruct (entries_count ctx err resourceEvents objs Hlen) as [Hn He].
  split; [|split; [|rewrite Hrun; simpl; auto]].
  - eapply Forall2_impl; [exact Hobjs|].
    intros event obj. unfold describedBy.
    destruct (ResourceEvent.OldObject event); intros [= <-] || intros ->; auto.
  - rewrite Hrun. f_equal. f_equal.
    apply zip_with_ext; [|reflexivity..].
    intros event obj. unfold entriesOf, values, GetKind, GetNamespace, GetName.
    destruct (ResourceEvent.EventType event), (Context.V1Enabled ctx);
      reflexivity.
Qed.

(** *** Further properties *)

(** How [Log] goes through a batch, one event at a time. *)
Lemma Log_cons e ctx event resourceEvents topology err :
  Log e ctx (event :: resourceEvents) topology err
  = match describedBy event with
    | Some obj =>
        (entriesOf ctx err event obj
         ++ trace (Log e ctx resourceEvents topology err),
         result (Log e ctx resourceEvents topology err))
    | None => ([], Panic "invalid memory address or nil pointer dereference")
    end.
Proof.
  unfold Log. cbn [forRange].
  destruct (describedBy event) as [obj|] eqn:Hobj.
  - rewrite (logEvent_described _ _ _ _ Hobj).
    destruct (forRange resourceEvents (logEvent ctx err)) as [tr res].
    destruct err; reflexivity.
  - unfold describedBy in Hobj. unfold logEvent.
    destruct (ResourceEvent.OldObject event); [discriminate|].
    rewrite Hobj. reflexivity.
Qed.

Lemma writes_entriesOf ctx err event obj : writes (entriesOf ctx err event obj) = [].
Proof. destruct err; reflexivity. Qed.

Lemma Log_writes_nil e ctx resourceEvents topology err :
  writes (trace (Log e ctx resourceEvents topology err)) = [].
Proof.
  induction resourceEvents as [|event events IH]; [reflexivity|].
  rewrite Log_cons. destruct (describedBy event); [|reflexivity].
  unfold trace at 1. cbn [fst].
  rewrite writes_app, writes_entriesOf, IH. reflexivity.
Qed.

Definition byEventLogger (eff : Effect) : bool :=
  match eff with
  | Controller.Log (Info name _ _ _) => String.eqb name "event logger"
  | Controller.Log (ErrorEntry name _ _ _) => String.eqb name "event logger"
  | _ => false
  end.

(** X9. An event that carries neither an old nor a new object makes [Log]
    panic on it: the events before it are logged as usual, nothing is logged
    for it or for any event after it. *)
Theorem Log_stops_at_objectless_event (e : t) (ctx : Context.t)
    (before : list ResourceEvent.t) (objs : list Object)
    (event : ResourceEvent.t) (after : list ResourceEvent.t)
    (topology : Topology.t) (err : option error) :
  Forall2 (λ event obj,
             ResourceEvent.OldObject event = Some obj
             ∨ (ResourceEvent.OldObject event = None
                ∧ ResourceEvent.NewObject event = Some obj))
          before objs →
  ResourceEvent.OldObject event = None →
  ResourceEvent.NewObject event = None →
  Log e ctx (before ++ event :: after) topology err
  = (concat (zip_with (entriesOf ctx err) before objs),
     Panic "invalid memory address or nil pointer dereference").
Proof.
  intros Hbefore Hold Hnew.
  induction Hbefore as [|ev obj evs objs Hev _ IH].
  - cbn [app zip_with concat]. rewrite Log_cons. unfold describedBy.
    rewrite Hold, Hnew. reflexivity.
  - cbn [app zip_with concat]. rewrite Log_cons, IH.
    assert (Hd : describedBy ev = Some obj).
    { unfold describedBy. destruct Hev as [->|[-> ->]]; reflexivity. }
    rewrite Hd. reflexivity.
Qed.

(** X10. Whatever the batch, also one it panics on, [Log] does nothing but
    log: it issues no create and no update, every effect is an entry of the
    logger named "event logger", and there are at most two entries per
    event. *)
Theorem Log_only_logs (e : t) (ctx : Context.t)
    (resourceEvents : list ResourceEvent.t) (topology : Topology.t)
    (err : option error) :
  writes (trace (Log e ctx resourceEvents topology err)) = []
  ∧ forallb byEventLogger (trace (Log e ctx resourceEvents topology err)) = true
  ∧ (length (trace (Log e ctx resourceEvents topology err))
     ≤ 2 * length resourceEvents)%nat.
Proof.
  split; [apply Log_writes_nil|].
  induction resourceEvents as [|event events [IHl IHn]]; [split; [reflexivity|cbn; lia]|].
  rewrite Log_cons. destruct (describedBy event) as [obj|].
  - unfold trace at 1 3. cbn [fst].
    rewrite forallb_app, IHl, length_app.
    destruct err; cbn in *; split; try reflexivity; lia.
  - split; [reflexivity | cbn; lia].
Qed.

(** X11. The upstream error adds error entries and changes nothing else:
    dropping the error entries from the trace of a pass gives the trace of
    the same pass without upstream error, and the pass ends the same way. *)
Theorem Log_error_only_adds_entries (e : t) (ctx : Context.t)
    (resourceEvents : list ResourceEvent.t) (topology : Topology.t)
    (err : option error) :
  List.filter (λ eff, negb (isErrorLog eff))
    (trace (Log e ctx resourceEvents topology err))
  = trace (Log e ctx resourceEvents topology None)
  ∧ result (Log e ctx resourceEvents topology err)
    = result (Log e ctx resourceEvents topology None).
Proof.
  induction resourceEvents as [|event events [IHt IHr]]; [split; reflexivity|].
  rewrite !Log_cons. destruct (describedBy event) as [obj|]; [|split; reflexivity].
  unfold trace at 1 3, result at 1 3. cbn [fst snd].
  split; [|exact IHr].
  rewrite List.filter_app, IHt. destruct err; reflexivity.
Qed.

End Log.

End EventLogger.

(** *** Topology snapshot synchronizer *)

Module TopologyFileReconciler.

Import Controller.

Record t : Type := mk {
  Client : DynamicClient.t;
  Namespace : string;
}.

Definition ConfigMapGroupKind : Meta.GroupKind :=
  {| Meta.Group := ""; Meta.GKKind := "ConfigMap" |}.

Definition NewTopologyFileReconciler (client : DynamicClient.t)
    (namespace : string) : Res t :=
  if bool_decide (namespace = "") then
    Panic "namespace must be specified and can not be a blank string"
  else Ok {| Client := client; Namespace := namespace |}.

Section Reconcile.

(** [kuadrant.TopologyLabel], the discovery label of the snapshot record, and
    [controller.Destruct], which converts a typed object for submission and
    returns a pointer and an error. *)
Variable TopologyLabel : string.
Variable Destruct : Object → option Unstructured * option error.

(** The record the pass wants to find in the store (lines 208-217). *)
Definition desiredConfigMap (r : t) (topology : Topology.t) : ConfigMap.t :=
  {| ConfigMap.TypeMeta := {| Meta.Kind := ""; Meta.APIVersion := "" |};
     ConfigMap.ObjectMeta :=
       {| Meta.Name := "topology";
          Meta.Namespace := Namespace r;
          Meta.UID := "";
          Meta.Generation := 0;
          Meta.DeletionTimestamp := None;
          Meta.Labels := {[ TopologyLabel := "true" ]};
          Meta.OwnerReferences := [] |};
     ConfigMap.Data := {[ "topology" := Topology.ToDot topology ]} |}.

(** The filter of lines 223-225. *)
Definition isTopologyConfigMap (cm : ConfigMap.t) (object : Item) : bool :=
  bool_decide (ItemName object = Meta.Name (ConfigMap.ObjectMeta cm))
  && bool_decide (ItemNamespace object = Meta.Namespace (ConfigMap.ObjectMeta cm))
  && bool_decide (ItemKind object = Meta.GKKind ConfigMapGroupKind).

(** [m[key]] on a Go map: the value, or the zero value and [false]. *)
Definition mapIndex (m : gmap string string) (key : string) : string * bool :=
  match m !! key with
  | Some v => (v, true)
  | None => ("", false)
  end.

Definition Reconcile (r : t) : ReconcileFunc :=
  λ ctx _ topology _,
    let logger := "topology file" in
    let cm := desiredConfigMap r topology in
    let '(unstructuredCM, err) := Destruct (ConfigMapObject cm) in
    match err with
    | Some err =>
        emit (Log (ErrorEntry logger err "failed to destruct topology configmap" []))
    | None => mret ()
    end;;
    let existingTopologyConfigMaps := ItemsWhere topology (isTopologyConfigMap cm) in
    if (length existingTopologyConfigMaps =? 0)%nat then
      emit (CreateCall ConfigMapsResource
              (Meta.Namespace (ConfigMap.ObjectMeta cm)) unstructuredCM);;
      match DynamicClient.Create (Client r) ConfigMapsResource
              (Meta.Namespace (ConfigMap.ObjectMeta cm)) unstructuredCM with
      | Some err =>
          if IsAlreadyExists err then
            (* This error can happen when the operator is starting, and the
               create event for the topology has not being processed. *)
            emit (Log (Info logger 0
                         "already created topology configmap, must not be in topology yet" []))
          else
            emit (Log (ErrorEntry logger err "failed to write topology configmap" []))
      | None => mret ()
      end
    else
      (if (1 <? length existingTopologyConfigMaps)%nat then
         emit (Log (Info logger 0
                      "multiple topology configmaps found, continuing but unexpected behaviour may occur" []))
       else mret ());;
      match existingTopologyConfigMaps with
      | [] => panic "index out of range [0] with length 0"
      | RuntimeObject (ConfigMapObject cmTopology) :: _ =>
          let '(d, found) := mapIndex (ConfigMap.Data cmTopology) "topology" in
          if negb found
             || bool_decide
                  (strings_Compare d (mapIndex (ConfigMap.Data cm) "topology").1 ≠ 0)
          then
            emit (UpdateCall ConfigMapsResource
                    (Meta.Namespace (ConfigMap.ObjectMeta cm)) unstructuredCM);;
            match DynamicClient.Update (Client r) ConfigMapsResource
                    (Meta.Namespace (ConfigMap.ObjectMeta cm)) unstructuredCM with
            | Some err =>
                emit (Log (ErrorEntry logger err "failed to update topology configmap" []))
            | None => mret ()
            end
          else mret ()
      | RuntimeObject _ :: _ =>
          panic "interface conversion: runtime.Object is not *v1.ConfigMap"
      | _ :: _ =>
          panic "interface conversion: machinery.Object is not *controller.RuntimeObject"
      end.

(** *** Properties *)

(** The snapshot records a pass finds, the text a record stores (none when
    the key is missing), and the pieces of a pass's trace. *)
Definition existing (r : t) (topology : Topology.t) : list Item :=
  ItemsWhere topology (isTopologyConfigMap (desiredConfigMap r topology)).

Definition storedText (data : gmap string string) : option string :=
  data !! "topology".

Definition payload (r : t) (topology : Topology.t) : option Unstructured :=
  (Destruct (ConfigMapObject (desiredConfigMap r topology))).1.

Definition destructLog (err : option error) : list Effect :=
  match err with
  | Some err =>
      [ Log (ErrorEntry "topology file" err
               "failed to destruct topology configmap" []) ]
  | None => []
  end.

Definition afterCreate (answer : option error) : list Effect :=
  match answer with
  | Some err =>
      if IsAlreadyExists err then
        [ Log (Info "topology file" 0
                 "already created topology configmap, must not be in topology yet" []) ]
      else
        [ Log (ErrorEntry "topology file" err "failed to write topology configmap" []) ]
  | None => []
  end.

Definition afterUpdate (answer : option error) : list Effect :=
  match answer with
  | Some err =>
      [ Log (ErrorEntry "topology file" err "failed to update topology configmap" []) ]
  | None => []
  end.

Definition multipleFound (rest : list Item) : list Effect :=
  match rest with
  | [] => []
  | _ :: _ =>
      [ Log (Info "topology file" 0
               "multiple topology configmaps found, continuing but unexpected behaviour may occur" []) ]
  end.

Definition createCall (r : t) (topology : Topology.t) : Effect :=
  CreateCall ConfigMapsResource (Namespace r) (payload r topology).

Definition updateCall (r : t) (topology : Topology.t) : Effect :=
  UpdateCall ConfigMapsResource (Namespace r) (payload r topology).

(** The comparison of line 246 holds exactly when the record does not store
    the desired text. *)
Lemma stale_iff (r : t) (topology : Topology.t) (data : gmap string string) :
  negb (mapIndex data "topology").2
  || bool_decide
       (strings_Compare (mapIndex data "topology").1
          (mapIndex (ConfigMap.Data (desiredConfigMap r topology)) "topology").1
        ≠ 0)
  = negb (bool_decide (storedText data = Some (Topology.ToDot topology))).
Proof.
  unfold mapIndex, storedText, desiredConfigMap. cbn [ConfigMap.Data].
  rewrite lookup_singleton_eq.
  destruct (data !! "topology") as [d|]; cbn [fst snd negb orb].
  - destruct (decide (d = Topology.ToDot topology)) as [->|Hne].
    + rewrite bool_decide_eq_false_2, bool_decide_eq_true_2; [reflexivity..|].
      intros Hcmp. apply Hcmp. apply strings_Compare_eq. reflexivity.
    + rewrite bool_decide_eq_true_2, bool_decide_eq_false_2;
        [reflexivity| congruence |].
      rewrite strings_Compare_eq. exact Hne.
  - rewrite bool_decide_eq_false_2 by discriminate. reflexivity.
Qed.

(** The three ways a pass can go. *)
Inductive Outcome (r : t) (topology : Topology.t) : M Effect () → Prop :=
| Creating :
    existing r topology = [] →
    Outcome r topology
      (destructLog (Destruct (ConfigMapObject (desiredConfigMap r topology))).2
       ++ [createCall r topology]
       ++ afterCreate
            (DynamicClient.Create (Client r) ConfigMapsResource (Namespace r)
               (payload r topology)),
       Ok ())
| Found cmTopology rest :
    existing r topology = RuntimeObject (ConfigMapObject cmTopology) :: rest →
    Outcome r topology
      (destructLog (Destruct (ConfigMapObject (desiredConfigMap r topology))).2
       ++ multipleFound rest
       ++ (if bool_decide (storedText (ConfigMap.Data cmTopology)
                           = Some (Topology.ToDot topology))
           then []
           else updateCall r topology
                :: afterUpdate
                     (DynamicClient.Update (Client r) ConfigMapsResource
                        (Namespace r) (payload r topology))),
       Ok ())
| IllTyped item rest msg :
    existing r topology = item :: rest →
    (∀ cm, item ≠ RuntimeObject (ConfigMapObject cm)) →
    Outcome r topology
      (destructLog (Destruct (ConfigMapObject (desiredConfigMap r topology))).2
       ++ multipleFound rest,
       Panic msg).

Lemma synchronizer_outcome r ctx resourceEvents topology err :
  Outcome r topology (Reconcile r ctx resourceEvents topology err).
Proof.
  unfold Reconcile.
  pose proof (stale_iff r topology) as Hstale.
  fold (existing r topology).
  destruct (existing r topology) as [|item rest] eqn:Hex.
  - eapply (eq_ind _ (Outcome r topology) (Creating r topology Hex)).
    unfold createCall, payload, afterCreate, destructLog.
    destruct (Destruct (ConfigMapObject (desiredConfigMap r topology)))
      as [unstructuredCM [derr|]]; cbn;
      destruct (DynamicClient.Create (Client r) ConfigMapsResource _ _) as [cerr|];
      try destruct (IsAlreadyExists cerr); reflexivity.
  - assert (Hmulti :
      (if (1 <? S (length rest))%nat
       then emit (Log (Info "topology file" 0
                         "multiple topology configmaps found, continuing but unexpected behaviour may occur" []))
       else mret ()) = (multipleFound rest, Ok ())).
    { destruct rest; reflexivity. }
    cbn [length Nat.eqb]. cbv iota. rewrite Hmulti. clear Hmulti.
    destruct item as [k|[k|cmTopology|a|tm om]|tm om].
    3: {
      eapply (eq_ind _ (Outcome r topology) (Found r topology cmTopology rest Hex)).
      specialize (Hstale (ConfigMap.Data cmTopology)).
      destruct (mapIndex (ConfigMap.Data cmTopology) "topology") as [d found].
      cbn [fst snd] in Hstale. rewrite Hstale.
      unfold updateCall, payload, afterUpdate, destructLog.
      destruct (Destruct (ConfigMapObject (desiredConfigMap r topology)))
        as [unstructuredCM [derr|]]; cbn;
        destruct (bool_decide (storedText (ConfigMap.Data cmTopology)
                               = Some (Topology.ToDot topology)));
        cbn; rewrite ?app_nil_r; try reflexivity;
        destruct (DynamicClient.Update (Client r) ConfigMapsResource _ _);
        cbn; rewrite <- ?app_assoc; reflexivity. }
    all: eapply (eq_ind _ (Outcome r topology)
                   (IllTyped r topology _ rest _ Hex ltac:(discriminate)));
      unfold destructLog;
      destruct (Destruct (ConfigMapObject (desiredConfigMap r topology)))
        as [unstructuredCM [derr|]]; cbn; rewrite app_nil_r; reflexivity.
Qed.

Lemma writes_destructLog err : writes (destructLog err) = [].
Proof. destruct err; reflexivity. Qed.

Lemma writes_multipleFound rest : writes (multipleFound rest) = [].
Proof. destruct rest; reflexivity. Qed.

Lemma writes_afterUpdate answer : writes (afterUpdate answer) = [].
Proof. destruct answer; reflexivity. Qed.

Lemma creates_destructLog err : creates (destructLog err) = [].
Proof. destruct err; reflexivity. Qed.

(** A pass that finds one record, and that record is a ConfigMap. *)
Lemma Reconcile_found r ctx resourceEvents topology err cmTopology rest :
  existing r topology = RuntimeObject (ConfigMapObject cmTopology) :: rest →
  Reconcile r ctx resourceEvents topology err
  = (destructLog (Destruct (ConfigMapObject (desiredConfigMap r topology))).2
     ++ multipleFound rest
     ++ (if bool_decide (storedText (ConfigMap.Data cmTopology)
                         = Some (Topology.ToDot topology))
         then []
         else updateCall r topology
              :: afterUpdate
                   (DynamicClient.Update (Client r) ConfigMapsResource
                      (Namespace r) (payload r topology))),
     Ok ()).
Proof.
  intros Hex.
  destruct (synchronizer_outcome r ctx resourceEvents topology err)
    as [Hnil | cm rest' Hfound | item rest' msg Hitem Hill].
  - rewrite Hex in Hnil. discriminate.
  - rewrite Hex in Hfound. injection Hfound as <- <-. reflexivity.
  - rewrite Hex in Hitem. injection Hitem as <- <-.
    contradiction (Hill cmTopology). reflexivity.
Qed.

(** The data of the snapshot record as the store holds it after the updates
    of a trace: an update the server accepted replaces it by the data of the
    record submitted. *)
Definition storedDataAfter (r : t) (tr : list Effect)
    (data : gmap string string) : gmap string string :=
  fold_left
    (λ data e,
       match e with
       | UpdateCall ConfigMapsResource namespace
           (Some (UnstructuredOf (ConfigMapObject cm))) =>
           match DynamicClient.Update (Client r) ConfigMapsResource namespace
                   (Some (UnstructuredOf (ConfigMapObject cm))) with
           | None => ConfigMap.Data cm
           | Some _ => data
           end
       | _ => data
       end)
    tr data.

(** C6. When exactly one snapshot record is found, the pass issues an update
    if and only if the text the record stores is not the serialized topology
    (a record without the key stores no text); no other write is issued.
    And when the topology serializes to the same text in the next pass, which
    finds the record as the first pass left it, the next pass writes
    nothing. *)
Theorem Reconcile_updates_iff_stale (r : t) (ctx : Context.t)
    (resourceEvents : list ResourceEvent.t) (topology : Topology.t)
    (err : option error) (cmTopology : ConfigMap.t) :
  existing r topology = [RuntimeObject (ConfigMapObject cmTopology)] →
  let pass := Reconcile r ctx resourceEvents topology err in
  (updateCall r topology ∈ trace pass
   ↔ storedText (ConfigMap.Data cmTopology) ≠ Some (Topology.ToDot topology))
  ∧ writes (trace pass)
    = (if bool_decide (storedText (ConfigMap.Data cmTopology)
                       = Some (Topology.ToDot topology))
       then []
       else [updateCall r topology])
  ∧ ∀ ctx' resourceEvents' topology' err' cmTopology',
      Destruct (ConfigMapObject (desiredConfigMap r topology))
      = (Some (UnstructuredOf (ConfigMapObject (desiredConfigMap r topology))),
         None) →
      DynamicClient.Update (Client r) ConfigMapsResource (Namespace r)
        (payload r topology) = None →
      Topology.ToDot topology' = Topology.ToDot topology →
      existing r topology' = [RuntimeObject (ConfigMapObject cmTopology')] →
      ConfigMap.Data cmTopology'
      = storedDataAfter r (trace pass) (ConfigMap.Data cmTopology) →
      writes (trace (Reconcile r ctx' resourceEvents' topology' err')) = [].
Proof.
  intros Hex pass. subst pass.
  rewrite (Reconcile_found r ctx resourceEvents topology err cmTopology [] Hex).
  unfold trace. cbn [fst multipleFound app].
  split; [|split].
  - case_bool_decide as Hup.
    + rewrite app_nil_r. split; [|intros Hne; contradiction].
      intros Hin. exfalso.
      destruct (Destruct _) as [u [derr|]]; cbn in Hin;
        [apply list_elem_of_singleton in Hin; discriminate | inversion Hin].
    + split; [intros _; exact Hup | intros _].
      apply elem_of_app. right. left.
  - rewrite writes_app, writes_destructLog. case_bool_decide; [reflexivity|].
    cbn. fold (writes (afterUpdate
      (DynamicClient.Update (Client r) ConfigMapsResource (Namespace r)
         (payload r topology)))).
    rewrite writes_afterUpdate. reflexivity.
  - intros ctx' resourceEvents' topology' err' cmTopology'
      Hdestruct Haccepted Hdot Hex' Hdata.
    rewrite (Reconcile_found r ctx' resourceEvents' topology' err' cmTopology'
               [] Hex').
    cbn [fst multipleFound app].
    rewrite writes_app, writes_destructLog.
    rewrite bool_decide_eq_true_2; [reflexivity|].
    rewrite Hdata, Hdot. revert Haccepted. unfold payload.
    rewrite Hdestruct. cbn [fst snd destructLog app]. intros Haccepted.
    case_bool_decide as Hup; [exact Hup|].
    unfold updateCall, payload. rewrite Hdestruct. cbn [fst].
    cbn [storedDataAfter fold_left]. unfold storedDataAfter. cbn [fold_left].
    rewrite Haccepted. cbn [afterUpdate fold_left].
    unfold storedText, desiredConfigMap. cbn [ConfigMap.Data].
    apply lookup_singleton_eq.
Qed.

(** What the pass does once the create call is made: it returns, and what it
    logs after the call is decided by the server's answer alone. *)
Lemma synchronizer_after_create r ctx resourceEvents topology err
    resource namespace obj post :
  afterFirstCreate (trace (Reconcile r ctx resourceEvents topology err))
  = Some (resource, namespace, obj, post) →
  result (Reconcile r ctx resourceEvents topology err) = Ok ()
  ∧ post = afterCreate (DynamicClient.Create (Client r) resource namespace obj).
Proof.
  destruct (synchronizer_outcome r ctx resourceEvents topology err)
    as [Hnil | cm rest Hfound | item rest msg Hitem Hill];
    unfold trace, result; cbn [fst snd].
  - rewrite afterFirstCreate_app by apply creates_destructLog.
    unfold createCall. cbn. intros [= <- <- <- <-]. split; reflexivity.
  - rewrite afterFirstCreate_app by apply creates_destructLog.
    destruct rest; cbn; case_bool_decide; cbn;
      try discriminate;
      destruct (DynamicClient.Update (Client r) _ _ _); discriminate.
  - rewrite afterFirstCreate_app by apply creates_destructLog.
    destruct rest; discriminate.
Qed.

(** *** Further properties *)

Lemma writes_afterCreate answer : writes (afterCreate answer) = [].
Proof. destruct answer as [e|]; [unfold afterCreate; destruct (IsAlreadyExists e)|]; reflexivity. Qed.

(** The API writes of a pass, by what the pass found. *)
Lemma synchronizer_writes r ctx resourceEvents topology err :
  writes (trace (Reconcile r ctx resourceEvents topology err))
  = match existing r topology with
    | [] => [createCall r topology]
    | RuntimeObject (ConfigMapObject cmTopology) :: _ =>
        if bool_decide (storedText (ConfigMap.Data cmTopology)
                        = Some (Topology.ToDot topology))
        then []
        else [updateCall r topology]
    | _ => []
    end.
Proof.
  destruct (synchronizer_outcome r ctx resourceEvents topology err)
    as [Hnil | cm rest Hfound | item rest msg Hitem Hill];
    unfold trace; cbn [fst].
  - rewrite Hnil, !writes_app, writes_destructLog, writes_afterCreate. reflexivity.
  - rewrite Hfound, !writes_app, writes_destructLog, writes_multipleFound.
    case_bool_decide; [reflexivity|].
    cbn. fold (writes (afterUpdate
      (DynamicClient.Update (Client r) ConfigMapsResource (Namespace r)
         (payload r topology)))).
    rewrite writes_afterUpdate. reflexivity.
  - rewrite Hitem, !writes_app, writes_destructLog, writes_multipleFound.
    destruct item as [k|[k|cm|a|tm om]|tm om]; try reflexivity.
    contradiction (Hill cm). reflexivity.
Qed.

(** X12. A pass writes to the store at most once.  It issues the create
    call, of the snapshot record in its namespace, when and only when it
    finds no record; when it finds one it issues nothing or the one update
    call, and never a create. *)
Theorem synchronizer_writes_once (r : t) (ctx : Context.t)
    (resourceEvents : list ResourceEvent.t) (topology : Topology.t)
    (err : option error) :
  let pass := Reconcile r ctx resourceEvents topology err in
  (length (writes (trace pass)) ≤ 1)%nat
  ∧ (writes (trace pass) = [createCall r topology] ↔ existing r topology = [])
  ∧ (existing r topology ≠ [] →
     writes (trace pass) = [] ∨ writes (trace pass) = [updateCall r topology]).
Proof.
  intros pass. subst pass. rewrite synchronizer_writes.
  destruct (existing r topology) as [|[k|[k|cm|a|tm om]|tm om] rest];
    try case_bool_decide; cbn [length];
    (split; [lia|]); (split; [split; (reflexivity || discriminate)|]);
    intros Hne; auto; contradiction Hne; reflexivity.
Qed.

Definition multipleFoundWarning : Effect :=
  Log (Info "topology file" 0
         "multiple topology configmaps found, continuing but unexpected behaviour may occur" []).

(** X14. When several records are found the pass goes by the first one: it
    updates exactly when that one does not store the serialized topology,
    whatever the others store, it returns, and it logs the warning about
    multiple records when and only when more than one was found. *)
Theorem synchronizer_goes_by_first_record (r : t) (ctx : Context.t)
    (resourceEvents : list ResourceEvent.t) (topology : Topology.t)
    (err : option error) (cmTopology : ConfigMap.t) (rest : list Item) :
  existing r topology = RuntimeObject (ConfigMapObject cmTopology) :: rest →
  let pass := Reconcile r ctx resourceEvents topology err in
  writes (trace pass)
  = (if bool_decide (storedText (ConfigMap.Data cmTopology)
                     = Some (Topology.ToDot topology))
     then []
     else [updateCall r topology])
  ∧ result pass = Ok ()
  ∧ (multipleFoundWarning ∈ trace pass ↔ rest ≠ []).
Proof.
  intros Hex pass. subst pass.
  split; [rewrite synchronizer_writes, Hex; reflexivity|].
  rewrite (Reconcile_found r ctx resourceEvents topology err cmTopology rest Hex).
  split; [reflexivity|].
  unfold trace. cbn [fst]. rewrite !elem_of_app.
  split.
  - intros [Hin|[Hin|Hin]].
    + destruct (Destruct _) as [u [derr|]]; cbn in Hin;
        [apply list_elem_of_singleton in Hin; discriminate | inversion Hin].
    + destruct rest; [inversion Hin | discriminate].
    + case_bool_decide; [inversion Hin|].
      apply elem_of_cons in Hin as [Hin|Hin]; [discriminate|].
      destruct (DynamicClient.Update _ _ _ _); cbn in Hin;
        [apply list_elem_of_singleton in Hin; discriminate | inversion Hin].
  - intros Hne. right. left. destruct rest; [contradiction|].
    apply list_elem_of_singleton. reflexivity.
Qed.

(** X15. When the first record found is not a ConfigMap behind a
    [*controller.RuntimeObject] the type assertion panics: the pass ends
    there and has written nothing. *)
Theorem synchronizer_panics_on_other_type (r : t) (ctx : Context.t)
    (resourceEvents : list ResourceEvent.t) (topology : Topology.t)
    (err : option error) (item : Item) (rest : list Item) :
  existing r topology = item :: rest →
  (∀ cm, item ≠ RuntimeObject (ConfigMapObject cm)) →
  let pass := Reconcile r ctx resourceEvents topology err in
  writes (trace pass) = [] ∧ returns (result pass) = false.
Proof.
  intros Hex Hother pass. subst pass.
  split.
  - rewrite synchronizer_writes, Hex.
    destruct item as [k|[k|cm|a|tm om]|tm om]; try reflexivity.
    contradiction (Hother cm). reflexivity.
  - destruct (synchronizer_outcome r ctx resourceEvents topology err)
      as [Hnil | cm rest' Hfound | item' rest' msg Hitem Hill].
    + rewrite Hex in Hnil. discriminate.
    + rewrite Hex in Hfound. injection Hfound as -> _.
      contradiction (Hother cm). reflexivity.
    + reflexivity.
Qed.

(** X16. An update the server refuses, for whatever reason, is logged as
    an error and goes no further: the pass returns, the one update call is
    not repeated, and the error is the only thing logged after the call. *)
Theorem synchronizer_swallows_update_error (r : t) (ctx : Context.t)
    (resourceEvents : list ResourceEvent.t) (topology : Topology.t)
    (err : option error) (cmTopology : ConfigMap.t) (rest : list Item)
    (updateErr : error) :
  existing r topology = RuntimeObject (ConfigMapObject cmTopology) :: rest →
  storedText (ConfigMap.Data cmTopology) ≠ Some (Topology.ToDot topology) →
  DynamicClient.Update (Client r) ConfigMapsResource (Namespace r)
    (payload r topology) = Some updateErr →
  let pass := Reconcile r ctx resourceEvents topology err in
  result pass = Ok ()
  ∧ writes (trace pass) = [updateCall r topology]
  ∧ ∃ pre,
      trace pass
      = pre ++ [ updateCall r topology;
                 Log (ErrorEntry "topology file" updateErr
                        "failed to update topology configmap" []) ]
      ∧ writes pre = [].
Proof.
  intros Hex Hstale Hanswer pass. subst pass.
  split; [|split].
  - rewrite (Reconcile_found r ctx resourceEvents topology err cmTopology rest Hex).
    reflexivity.
  - rewrite synchronizer_writes, Hex.
    rewrite bool_decide_eq_false_2 by exact Hstale. reflexivity.
  - rewrite (Reconcile_found r ctx resourceEvents topology err cmTopology rest Hex).
    unfold trace. cbn [fst].
    rewrite bool_decide_eq_false_2 by exact Hstale. rewrite Hanswer.
    eexists (_ ++ _). rewrite <- app_assoc. split; [reflexivity|].
    rewrite writes_app, writes_destructLog, writes_multipleFound. reflexivity.
Qed.

(** X13. A pass finds what an earlier pass submitted.  The record a pass
    wants, once the server holds it as a ConfigMap with the name, namespace
    and data submitted, passes the filter of any later pass of the same
    reconciler; and when it comes first among the items and the topology
    serializes to the same text, the later pass writes nothing. *)
Theorem synchronizer_finds_its_record (r : t) (ctx : Context.t)
    (resourceEvents : list ResourceEvent.t) (topology topology' : Topology.t)
    (err : option error) (stored : ConfigMap.t) (others : list Item) :
  Meta.Kind (ConfigMap.TypeMeta stored) = "ConfigMap" →
  Meta.Name (ConfigMap.ObjectMeta stored)
  = Meta.Name (ConfigMap.ObjectMeta (desiredConfigMap r topology)) →
  Meta.Namespace (ConfigMap.ObjectMeta stored)
  = Meta.Namespace (ConfigMap.ObjectMeta (desiredConfigMap r topology)) →
  ConfigMap.Data stored = ConfigMap.Data (desiredConfigMap r topology) →
  Topology.Items topology' = RuntimeObject (ConfigMapObject stored) :: others →
  Topology.ToDot topology' = Topology.ToDot topology →
  isTopologyConfigMap (desiredConfigMap r topology')
    (RuntimeObject (ConfigMapObject stored)) = true
  ∧ writes (trace (Reconcile r ctx resourceEvents topology' err)) = []
  ∧ result (Reconcile r ctx resourceEvents topology' err) = Ok ().
Proof.
  intros Hkind Hname Hns Hdata Hitems Hdot.
  assert (Hmatch : isTopologyConfigMap (desiredConfigMap r topology')
                     (RuntimeObject (ConfigMapObject stored)) = true).
  { unfold isTopologyConfigMap, ItemName, ItemNamespace, ItemKind, GetName,
      GetNamespace, GetKind. cbn [ObjectMetaOf TypeMetaOf].
    rewrite Hname, Hns, Hkind. cbn.
    rewrite !bool_decide_eq_true_2 by reflexivity. reflexivity. }
  split; [exact Hmatch|].
  assert (Hex : existing r topology'
                = RuntimeObject (ConfigMapObject stored)
                  :: List.filter (isTopologyConfigMap (desiredConfigMap r topology'))
                       others).
  { unfold existing, ItemsWhere. rewrite Hitems. cbn [List.filter].
    rewrite Hmatch. reflexivity. }
  split.
  - rewrite synchronizer_writes, Hex.
    rewrite bool_decide_eq_true_2; [reflexivity|].
    rewrite Hdata, Hdot. unfold storedText, desiredConfigMap. cbn [ConfigMap.Data].
    apply lookup_singleton_eq.
  - rewrite (Reconcile_found r ctx resourceEvents topology' err stored _ Hex).
    reflexivity.
Qed.

End Reconcile.

End TopologyFileReconciler.

(** *** Singleton backend ensurer *)

Module AuthorinoCrReconciler.

Import Controller.

Record t : Type := mk {
  Client : DynamicClient.t;
}.

Definition NewAuthorinoCrReconciler (client : DynamicClient.t) : t :=
  {| Client := client |}.

Section Reconcile.

(** [kuadrantv1beta1.KuadrantKind] and [kuadrantv1beta1.AuthorinoKind], the
    group and kind of the root owner and of the backend instance, declared
    with the API types; and [controller.Destruct]. *)
Variable KuadrantKind AuthorinoKind : Meta.GroupKind.
Variable Destruct : Object → option Unstructured * option error.

(** The Authorino the reconciler builds for the root [kobj] (lines
    143-176).  The owner's [GroupVersionKind().GroupVersion().String()] is its
    apiVersion. *)
Definition newAuthorino (kobj : Kuadrant.t) : Authorino.t :=
  {| Authorino.TypeMeta :=
       {| Meta.Kind := "Authorino";
          Meta.APIVersion := "operator.authorino.kuadrant.io/v1beta1" |};
     Authorino.ObjectMeta :=
       {| Meta.Name := "authorino";
          Meta.Namespace := Meta.Namespace (Kuadrant.ObjectMeta kobj);
          Meta.UID := "";
          Meta.Generation := 0;
          Meta.DeletionTimestamp := None;
          Meta.Labels := ∅;
          Meta.OwnerReferences :=
            [ {| Meta.OwnerAPIVersion := Meta.APIVersion (Kuadrant.TypeMeta kobj);
                 Meta.OwnerKind := Meta.Kind (Kuadrant.TypeMeta kobj);
                 Meta.OwnerName := Meta.Name (Kuadrant.ObjectMeta kobj);
                 Meta.OwnerUID := Meta.UID (Kuadrant.ObjectMeta kobj);
                 Meta.BlockOwnerDeletion := Some true;
                 Meta.Controller := Some true |} ] |};
     Authorino.Spec :=
       {| Authorino.ClusterWide := true;
          Authorino.SupersedingHostSubsets := true;
          Authorino.SpecListener :=
            {| Authorino.ListenerTls := {| Authorino.Enabled := Some false |} |};
          Authorino.SpecOIDCServer :=
            {| Authorino.OIDCServerTls := {| Authorino.Enabled := Some false |} |} |} |}.

(** The callback of lines 111-116; the type assertion of [item] to a
    pointer to [kuadrantv1beta1.Kuadrant] panics on any other Go type. *)
Definition asKuadrant (item : Item) (_ : nat) : M Effect (option Kuadrant.t) :=
  if bool_decide (ItemKind item = Meta.GKKind KuadrantKind) then
    match item with
    | KuadrantItem k => mret (Some k)
    | _ => panic "interface conversion: machinery.Object is not *v1beta1.Kuadrant"
    end
  else mret None.

(** The callback of lines 131-136. *)
Definition asAuthorino (item : Item) (_ : nat) : M Effect (option Item) :=
  if bool_decide (ItemKind item = Meta.GKKind AuthorinoKind) then mret (Some item)
  else mret None.

Definition Reconcile (r : t) : ReconcileFunc :=
  λ ctx _ topology _,
    let logger := "AuthorinoCrReconciler" in
    emit (Log (Info logger 0 "reconciling authorino resource"
                 [("status", VString "started")]));;
    defer [ Log (Info logger 0 "reconciling authorino resource"
                   [("status", VString "completed")]) ]
      (kobjs ← FilterMap (Topology.Roots topology) asKuadrant;
       if (length kobjs =? 0)%nat then
         emit (Log (Info logger 0 "no kuadrant resources found"
                      [("status", VString "skipping")]))
       else
         (if (1 <? length kobjs)%nat then
            emit (Log (ErrorEntry logger
                         (ErrorString "multiple Kuadrant resources found")
                         "cannot select root Kuadrant resource"
                         [("status", VString "error")]))
          else mret ());;
         match kobjs with
         | [] => panic "index out of range [0] with length 0"
         | kobj :: _ =>
             if bool_decide (Meta.DeletionTimestamp (Kuadrant.ObjectMeta kobj) ≠ None)
             then
               emit (Log (Info logger 0 "root kuadrant marked for deletion"
                            [("status", VString "skipping")]))
             else
               aobjs ← FilterMap (Topology.Items topology) asAuthorino;
               if (0 <? length aobjs)%nat then
                 emit (Log (Info logger 0
                              "authorino resource already exists, no need to create"
                              [("status", VString "skipping")]))
               else
                 let authorino := newAuthorino kobj in
                 let '(unstructuredAuthorino, err) :=
                   Destruct (AuthorinoObject authorino) in
                 match err with
                 | Some err =>
                     emit (Log (ErrorEntry logger err "failed to destruct authorino"
                                  [("status", VString "error")]))
                 | None => mret ()
                 end;;
                 emit (Log (Info logger 0 "creating authorino resource"
                              [("status", VString "processing")]));;
                 emit (CreateCall AuthorinoResource
                         (Meta.Namespace (Authorino.ObjectMeta authorino))
                         unstructuredAuthorino);;
                 match DynamicClient.Create (Client r) AuthorinoResource
                         (Meta.Namespace (Authorino.ObjectMeta authorino))
                         unstructuredAuthorino with
                 | Some err =>
                     if IsAlreadyExists err then
                       emit (Log (Info logger 0 "already created authorino resource"
                                    [("status", VString "acceptable")]))
                     else
                       emit (Log (ErrorEntry logger err
                                    "failed to create authorino resource"
                                    [("status", VString "error")]))
                 | None => mret ()
                 end
         end).

Definition Subscription (r : t) : Subscription.t :=
  {| Subscription.ReconcileFunc := Reconcile r;
     Subscription.Events :=
       [ {| ResourceEventMatcher.Kind := Some KuadrantKind;
            ResourceEventMatcher.EventType := Some CreateEvent |};
         {| ResourceEventMatcher.Kind := Some AuthorinoKind;
            ResourceEventMatcher.EventType := Some DeleteEvent |} ] |}.

(** *** Properties *)

(** The RootPolicyOwner roots of a topology, the selected one first; the
    BackendInstance objects of a topology; whether a root is marked for
    deletion; whether every RootPolicyOwner root is a [*Kuadrant]. *)
Definition isRootOwner (item : Item) : bool :=
  bool_decide (ItemKind item = Meta.GKKind KuadrantKind).

Definition isBackendInstance (item : Item) : bool :=
  bool_decide (ItemKind item = Meta.GKKind AuthorinoKind).

Definition rootOwners (topology : Topology.t) : list Item :=
  List.filter isRootOwner (Topology.Roots topology).

Definition backendInstances (topology : Topology.t) : list Item :=
  List.filter isBackendInstance (Topology.Items topology).

Definition toKuadrant (item : Item) : option Kuadrant.t :=
  match item with
  | KuadrantItem k => Some k
  | _ => None
  end.

Definition markedForDeletion (item : Item) : Prop :=
  ∃ k, item = KuadrantItem k
       ∧ Meta.DeletionTimestamp (Kuadrant.ObjectMeta k) ≠ None.

Definition typedRoots (topology : Topology.t) : Prop :=
  Forall (λ item, is_Some (toKuadrant item)) (rootOwners topology).

Lemma typedRoots_mapM topology :
  typedRoots topology ↔ is_Some (mapM toKuadrant (rootOwners topology)).
Proof.
  unfold typedRoots. induction (rootOwners topology) as [|item items IH].
  - split; [eexists; reflexivity | constructor].
  - rewrite Forall_cons, IH. cbn.
    destruct (toKuadrant item) as [k|]; cbn.
    + destruct (mapM toKuadrant items); cbn; split.
      * eauto.
      * intros _; split; eauto.
      * intros [_ [? [=]]].
      * intros [? [=]].
    + split; [intros [[? [=]] _] | intros [? [=]]].
Qed.

Lemma FilterMapFrom_asKuadrant index roots :
  FilterMapFrom index roots asKuadrant
  = ([], match mapM toKuadrant (List.filter isRootOwner roots) with
         | Some kobjs => Ok kobjs
         | None =>
             Panic "interface conversion: machinery.Object is not *v1beta1.Kuadrant"
         end).
Proof.
  revert index. induction roots as [|item rest IH]; intros index; [reflexivity|].
  cbn [FilterMapFrom List.filter]. rewrite IH.
  unfold asKuadrant, isRootOwner.
  destruct (bool_decide (ItemKind item = Meta.GKKind KuadrantKind));
    [destruct item as [k|o|tm om]|];
    cbn; try reflexivity;
    destruct (mapM toKuadrant _); reflexivity.
Qed.

Lemma FilterMapFrom_asAuthorino index items :
  FilterMapFrom index items asAuthorino
  = ([], Ok (List.filter isBackendInstance items)).
Proof.
  revert index. induction items as [|item rest IH]; intros index; [reflexivity|].
  cbn [FilterMapFrom List.filter]. rewrite IH.
  unfold asAuthorino, isBackendInstance.
  destruct (bool_decide (ItemKind item = Meta.GKKind AuthorinoKind));
    reflexivity.
Qed.

(** The log lines of the pass, and what follows the create call. *)
Definition started : Effect :=
  Log (Info "AuthorinoCrReconciler" 0 "reconciling authorino resource"
         [("status", VString "started")]).
Definition completed : Effect :=
  Log (Info "AuthorinoCrReconciler" 0 "reconciling authorino resource"
         [("status", VString "completed")]).

Definition multipleRoots (rest : list Kuadrant.t) : list Effect :=
  match rest with
  | [] => []
  | _ :: _ =>
      [ Log (ErrorEntry "AuthorinoCrReconciler"
               (ErrorString "multiple Kuadrant resources found")
               "cannot select root Kuadrant resource"
               [("status", VString "error")]) ]
  end.

Definition destructLog (err : option error) : list Effect :=
  match err with
  | Some err =>
      [ Log (ErrorEntry "AuthorinoCrReconciler" err "failed to destruct authorino"
               [("status", VString "error")]) ]
  | None => []
  end.

Definition afterCreate (answer : option error) : list Effect :=
  match answer with
  | Some err =>
      if IsAlreadyExists err then
        [ Log (Info "AuthorinoCrReconciler" 0 "already created authorino resource"
                 [("status", VString "acceptable")]) ]
      else
        [ Log (ErrorEntry "AuthorinoCrReconciler" err
                 "failed to create authorino resource"
                 [("status", VString "error")]) ]
  | None => []
  end.

(** The create call of the pass for the root [kobj], and the whole trace of
    a pass that reaches it. *)
Definition createCall (kobj : Kuadrant.t) : Effect :=
  CreateCall AuthorinoResource (Meta.Namespace (Kuadrant.ObjectMeta kobj))
    (Destruct (AuthorinoObject (newAuthorino kobj))).1.

Definition creatingTrace (r : t) (kobj : Kuadrant.t) (rest : list Kuadrant.t)
    : list Effect :=
  [started] ++ multipleRoots rest
  ++ destructLog (Destruct (AuthorinoObject (newAuthorino kobj))).2
  ++ [ Log (Info "AuthorinoCrReconciler" 0 "creating authorino resource"
              [("status", VString "processing")]);
       createCall kobj ]
  ++ afterCreate
       (DynamicClient.Create (Client r) AuthorinoResource
          (Meta.Namespace (Kuadrant.ObjectMeta kobj))
          (Destruct (AuthorinoObject (newAuthorino kobj))).1)
  ++ [completed].

(** The five ways a pass can go. *)
Inductive Outcome (r : t) (topology : Topology.t) : M Effect () → Prop :=
| IllTyped msg :
    mapM toKuadrant (rootOwners topology) = None →
    Outcome r topology ([started; completed], Panic msg)
| NoRoot :
    mapM toKuadrant (rootOwners topology) = Some [] →
    Outcome r topology
      ([ started;
         Log (Info "AuthorinoCrReconciler" 0 "no kuadrant resources found"
                [("status", VString "skipping")]);
         completed ], Ok ())
| RootDeleted kobj rest :
    mapM toKuadrant (rootOwners topology) = Some (kobj :: rest) →
    Meta.DeletionTimestamp (Kuadrant.ObjectMeta kobj) ≠ None →
    Outcome r topology
      ([started] ++ multipleRoots rest
       ++ [ Log (Info "AuthorinoCrReconciler" 0 "root kuadrant marked for deletion"
                   [("status", VString "skipping")]);
            completed ], Ok ())
| BackendExists kobj rest :
    mapM toKuadrant (rootOwners topology) = Some (kobj :: rest) →
    Meta.DeletionTimestamp (Kuadrant.ObjectMeta kobj) = None →
    backendInstances topology ≠ [] →
    Outcome r topology
      ([started] ++ multipleRoots rest
       ++ [ Log (Info "AuthorinoCrReconciler" 0
                   "authorino resource already exists, no need to create"
                   [("status", VString "skipping")]);
            completed ], Ok ())
| Creating kobj rest :
    mapM toKuadrant (rootOwners topology) = Some (kobj :: rest) →
    Meta.DeletionTimestamp (Kuadrant.ObjectMeta kobj) = None →
    backendInstances topology = [] →
    Outcome r topology (creatingTrace r kobj rest, Ok ()).

Lemma ensurer_outcome r ctx resourceEvents topology err :
  Outcome r topology (Reconcile r ctx resourceEvents topology err).
Proof.
  unfold Reconcile, FilterMap. rewrite FilterMapFrom_asKuadrant.
  fold (rootOwners topology).
  destruct (mapM toKuadrant (rootOwners topology)) as [[|kobj rest]|] eqn:Hroots.
  - apply NoRoot. exact Hroots.
  - cbn -[bool_decide Nat.ltb].
    assert (Hmulti :
      (if (1 <? S (length rest))%nat
       then emit (Log (ErrorEntry "AuthorinoCrReconciler"
                         (ErrorString "multiple Kuadrant resources found")
                         "cannot select root Kuadrant resource"
                         [("status", VString "error")]))
       else mret ()) = (multipleRoots rest, Ok ())).
    { destruct rest; reflexivity. }
    rewrite Hmulti. clear Hmulti.
    case_bool_decide as Hdel.
    + eapply (eq_ind _ (Outcome r topology)
                (RootDeleted r topology kobj rest Hroots Hdel)).
      cbn. rewrite <- app_assoc. reflexivity.
    + rewrite FilterMapFrom_asAuthorino. fold (backendInstances topology).
      destruct (backendInstances topology) as [|a aobjs] eqn:Hback.
      * eapply (eq_ind _ (Outcome r topology)
                  (Creating r topology kobj rest Hroots Hdel Hback)).
        unfold creatingTrace, createCall, afterCreate, destructLog.
        destruct (Destruct (AuthorinoObject (newAuthorino kobj)))
          as [unstructuredAuthorino [derr|]];
          cbn;
          destruct (DynamicClient.Create (Client r) AuthorinoResource _ _)
            as [cerr|]; [destruct (IsAlreadyExists cerr)| |destruct (IsAlreadyExists cerr)|];
          cbn; rewrite <- ?app_assoc; cbn; reflexivity.
      * assert (Hne : backendInstances topology ≠ []) by (rewrite Hback; discriminate).
        eapply (eq_ind _ (Outcome r topology)
                  (BackendExists r topology kobj rest Hroots Hdel Hne)).
        cbn. rewrite <- app_assoc. reflexivity.
  - apply IllTyped. exact Hroots.
Qed.

Lemma mapM_toKuadrant items kobjs :
  mapM toKuadrant items = Some kobjs → items = map KuadrantItem kobjs.
Proof.
  revert kobjs. induction items as [|item items IH]; intros kobjs; cbn.
  - intros [= <-]. reflexivity.
  - destruct item as [k|o|tm om]; cbn; try discriminate.
    destruct (mapM toKuadrant items) as [ks|]; cbn; [|discriminate].
    intros [= <-]. rewrite (IH ks eq_refl). reflexivity.
Qed.

Lemma creates_multipleRoots rest : creates (multipleRoots rest) = [].
Proof. destruct rest; reflexivity. Qed.

Lemma errorLogs_multipleRoots_nil : errorLogs (multipleRoots []) = [].
Proof. reflexivity. Qed.

Lemma creates_creatingTrace r kobj rest :
  creates (creatingTrace r kobj rest) = [createCall kobj].
Proof.
  unfold creatingTrace, creates, afterCreate, destructLog.
  rewrite !List.filter_app. fold (creates (multipleRoots rest)).
  rewrite creates_multipleRoots.
  destruct (Destruct (AuthorinoObject (newAuthorino kobj))) as [u [derr|]];
    destruct (DynamicClient.Create (Client r) AuthorinoResource _ _) as [cerr|];
    try destruct (IsAlreadyExists cerr); reflexivity.
Qed.

(** [item.GetDeletionTimestamp()] *)
Definition ItemDeletionTimestamp (item : Item) : option Meta.Time :=
  match item with
  | KuadrantItem k => Meta.DeletionTimestamp (Kuadrant.ObjectMeta k)
  | RuntimeObject o => Meta.DeletionTimestamp (ObjectMetaOf o)
  | OtherItem _ om => Meta.DeletionTimestamp om
  end.

(** C2. The ensurer issues a create call exactly when there is a
    RootPolicyOwner root, the first one is not marked for deletion and the
    topology holds no BackendInstance (every RootPolicyOwner root being a
    [*Kuadrant], without which the pass panics): with no root, a
    deletion-marked first root or an existing BackendInstance nothing is
    created.  A pass creates at most once, the Authorino of the first root,
    and it returns whenever the roots are typed. *)
Theorem Reconcile_creates_backend_only_when (r : t) (ctx : Context.t)
    (resourceEvents : list ResourceEvent.t) (topology : Topology.t)
    (err : option error) :
  let pass := Reconcile r ctx resourceEvents topology err in
  (creates (trace pass) ≠ []
   ↔ typedRoots topology
     ∧ (∃ root rest,
          rootOwners topology = root :: rest
          ∧ ItemDeletionTimestamp root = None)
     ∧ backendInstances topology = [])
  ∧ (∀ e, e ∈ creates (trace pass) →
       creates (trace pass) = [e]
       ∧ ∃ kobj rest,
           rootOwners topology = KuadrantItem kobj :: rest
           ∧ e = createCall kobj)
  ∧ (result pass = Ok () ↔ typedRoots topology).
Proof.
  intros pass. subst pass. rewrite typedRoots_mapM.
  destruct (ensurer_outcome r ctx resourceEvents topology err)
    as [msg Hroots | Hroots | kobj rest Hroots Hdel | kobj rest Hroots Hdel Hback
        | kobj rest Hroots Hdel Hback];
    rewrite Hroots; try (apply mapM_toKuadrant in Hroots; rewrite Hroots);
    unfold trace, result; cbn [fst snd].
  - split; [|split].
    + split; [intros H; contradiction H; reflexivity | intros [[? [=]] _]].
    + intros e He. inversion He.
    + split; [discriminate | intros [? [=]]].
  - split; [|split].
    + split; [intros H; contradiction H; reflexivity|].
      intros (_ & (root & rs & [=] & _) & _).
    + intros e He. inversion He.
    + split; eauto.
  - assert (Hc : creates ([started] ++ multipleRoots rest
                   ++ [ Log (Info "AuthorinoCrReconciler" 0
                               "root kuadrant marked for deletion"
                               [("status", VString "skipping")]);
                        completed ]) = []).
    { unfold creates. rewrite !List.filter_app.
      fold (creates (multipleRoots rest)). rewrite creates_multipleRoots.
      reflexivity. }
    rewrite Hc. split; [|split].
    + split; [intros H; contradiction H; reflexivity|].
      intros (_ & (root & rs & [= <- _] & Hnone) & _). contradiction.
    + intros e He. inversion He.
    + split; eauto.
  - assert (Hc : creates ([started] ++ multipleRoots rest
                   ++ [ Log (Info "AuthorinoCrReconciler" 0
                               "authorino resource already exists, no need to create"
                               [("status", VString "skipping")]);
                        completed ]) = []).
    { unfold creates. rewrite !List.filter_app.
      fold (creates (multipleRoots rest)). rewrite creates_multipleRoots.
      reflexivity. }
    rewrite Hc. split; [|split].
    + split; [intros H; contradiction H; reflexivity|].
      intros (_ & _ & Hnil). contradiction.
    + intros e He. inversion He.
    + split; eauto.
  - rewrite creates_creatingTrace. split; [|split].
    + split; [|discriminate]. intros _.
      split; [eauto|]. split; [|exact Hback].
      eexists _, _. split; [reflexivity | exact Hdel].
    + intros e He. apply list_elem_of_singleton in He. subst e.
      split; [reflexivity|]. eexists _, _. split; reflexivity.
    + split; eauto.
Qed.

(** What the pass does once the create call is made: it returns, and what it
    logs after the call is decided by the server's answer alone. *)
Lemma ensurer_after_create r ctx resourceEvents topology err
    resource namespace obj post :
  afterFirstCreate (trace (Reconcile r ctx resourceEvents topology err))
  = Some (resource, namespace, obj, post) →
  result (Reconcile r ctx resourceEvents topology err) = Ok ()
  ∧ post
    = afterCreate (DynamicClient.Create (Client r) resource namespace obj)
      ++ [completed].
Proof.
  destruct (ensurer_outcome r ctx resourceEvents topology err)
    as [msg Hroots | Hroots | kobj rest Hroots Hdel | kobj rest Hroots Hdel Hback
        | kobj rest Hroots Hdel Hback];
    unfold trace, result; cbn [fst snd]; try discriminate.
  - destruct rest; discriminate.
  - destruct rest; discriminate.
  - unfold creatingTrace, createCall.
    rewrite app_assoc, app_assoc.
    rewrite afterFirstCreate_app.
    + cbn. intros [= <- <- <- <-]. split; reflexivity.
    + rewrite !creates_app, creates_multipleRoots.
      destruct (Destruct (AuthorinoObject (newAuthorino kobj))) as [u [derr|]];
        reflexivity.
Qed.

(** *** Further properties *)

Lemma writes_multipleRoots rest : writes (multipleRoots rest) = [].
Proof. destruct rest; reflexivity. Qed.

Lemma writes_creatingTrace r kobj rest :
  writes (creatingTrace r kobj rest) = [createCall kobj].
Proof.
  unfold creatingTrace, afterCreate, destructLog.
  rewrite !writes_app, writes_multipleRoots.
  destruct (Destruct (AuthorinoObject (newAuthorino kobj))) as [u [derr|]];
    destruct (DynamicClient.Create (Client r) AuthorinoResource _ _) as [cerr|];
    try destruct (IsAlreadyExists cerr); reflexivity.
Qed.

Lemma mapM_toKuadrant_map kobjs :
  mapM toKuadrant (map KuadrantItem kobjs) = Some kobjs.
Proof.
  induction kobjs as [|k ks IH]; [reflexivity|].
  cbn. rewrite IH. reflexivity.
Qed.

(** The API writes of a pass: none, or the create call for the first root. *)
Lemma ensurer_writes r ctx resourceEvents topology err :
  (writes (trace (Reconcile r ctx resourceEvents topology err)) = []
   ∧ creates (trace (Reconcile r ctx resourceEvents topology err)) = [])
  ∨ ∃ kobj rest,
      rootOwners topology = KuadrantItem kobj :: rest
      ∧ writes (trace (Reconcile r ctx resourceEvents topology err))
        = [createCall kobj]
      ∧ creates (trace (Reconcile r ctx resourceEvents topology err))
        = [createCall kobj].
Proof.
  destruct (ensurer_outcome r ctx resourceEvents topology err)
    as [msg Hroots | Hroots | kobj rest Hroots Hdel | kobj rest Hroots Hdel Hback
        | kobj rest Hroots Hdel Hback];
    unfold trace; cbn [fst].
  - left. split; reflexivity.
  - left. split; reflexivity.
  - left. rewrite !writes_app, !creates_app, writes_multipleRoots,
      creates_multipleRoots. split; reflexivity.
  - left. rewrite !writes_app, !creates_app, writes_multipleRoots,
      creates_multipleRoots. split; reflexivity.
  - right. exists kobj, (map KuadrantItem rest).
    apply mapM_toKuadrant in Hroots.
    split; [exact Hroots|].
    split; [apply writes_creatingTrace | apply creates_creatingTrace].
Qed.

Definition isAuthorinoCreate (e : Effect) : bool :=
  match e with
  | CreateCall AuthorinoResource _ _ => true
  | _ => false
  end.

Definition isMultipleRootsError (e : Effect) : bool :=
  match e with
  | Log (ErrorEntry _ _ msg _) =>
      String.eqb msg "cannot select root Kuadrant resource"
  | _ => false
  end.

(** X18. Every pass logs "started" first and "completed" last, also a pass
    that panics on a root of the wrong type: the closing line is deferred. *)
Theorem ensurer_logs_start_and_completion (r : t) (ctx : Context.t)
    (resourceEvents : list ResourceEvent.t) (topology : Topology.t)
    (err : option error) :
  ∃ middle,
    trace (Reconcile r ctx resourceEvents topology err)
    = started :: middle ++ [completed].
Proof.
  destruct (ensurer_outcome r ctx resourceEvents topology err)
    as [msg Hroots | Hroots | kobj rest Hroots Hdel | kobj rest Hroots Hdel Hback
        | kobj rest Hroots Hdel Hback];
    unfold trace; cbn [fst].
  - exists []. reflexivity.
  - eexists [_]. reflexivity.
  - eexists (multipleRoots rest ++ [_]). cbn [app].
    rewrite <- app_assoc. reflexivity.
  - eexists (multipleRoots rest ++ [_]). cbn [app].
    rewrite <- app_assoc. reflexivity.
  - unfold creatingTrace.
    eexists (multipleRoots rest ++ destructLog _ ++ [_; _] ++ afterCreate _).
    cbn [app]. rewrite <- !app_assoc. reflexivity.
Qed.

(** X19. With several RootPolicyOwner roots the pass logs the error that
    the root cannot be selected, once, and goes on with the first root; with
    a single root it does not log it.  Either way it returns. *)
Theorem ensurer_reports_multiple_roots (r : t) (ctx : Context.t)
    (resourceEvents : list ResourceEvent.t) (topology : Topology.t)
    (err : option error) (kobj : Kuadrant.t) (rest : list Kuadrant.t) :
  rootOwners topology = map KuadrantItem (kobj :: rest) →
  let pass := Reconcile r ctx resourceEvents topology err in
  List.filter isMultipleRootsError (trace pass)
  = match rest with
    | [] => []
    | _ :: _ =>
        [ Log (ErrorEntry "AuthorinoCrReconciler"
                 (ErrorString "multiple Kuadrant resources found")
                 "cannot select root Kuadrant resource"
                 [("status", VString "error")]) ]
    end
  ∧ result pass = Ok ()
  ∧ ∀ e, e ∈ creates (trace pass) → e = createCall kobj.
Proof.
  intros Howners pass. subst pass.
  assert (Hm : mapM toKuadrant (rootOwners topology) = Some (kobj :: rest))
    by (rewrite Howners; apply mapM_toKuadrant_map).
  assert (Hfilter : List.filter isMultipleRootsError (multipleRoots rest)
                    = multipleRoots rest) by (destruct rest; reflexivity).
  destruct (ensurer_outcome r ctx resourceEvents topology err)
    as [msg Hroots | Hroots | kobj' rest' Hroots Hdel
        | kobj' rest' Hroots Hdel Hback | kobj' rest' Hroots Hdel Hback];
    rewrite Hm in Hroots; try discriminate;
    injection Hroots as <- <-; unfold trace, result; cbn [fst snd].
  - rewrite !List.filter_app, Hfilter, !creates_app, creates_multipleRoots.
    cbn. rewrite app_nil_r. split; [destruct rest; reflexivity|].
    split; [reflexivity|]. intros e He. inversion He.
  - rewrite !List.filter_app, Hfilter, !creates_app, creates_multipleRoots.
    cbn. rewrite app_nil_r. split; [destruct rest; reflexivity|].
    split; [reflexivity|]. intros e He. inversion He.
  - rewrite creates_creatingTrace. unfold creatingTrace, afterCreate, destructLog.
    rewrite !List.filter_app, Hfilter.
    split; [|split; [reflexivity|]].
    + destruct (Destruct (AuthorinoObject (newAuthorino kobj))) as [u [derr|]];
        destruct (DynamicClient.Create (Client r) AuthorinoResource _ _) as [cerr|];
        try destruct (IsAlreadyExists cerr);
        cbn; rewrite app_nil_r; destruct rest; reflexivity.
    + intros e He. apply list_elem_of_singleton in He. exact He.
Qed.

(** X20. The ensurer never updates anything: the writes of a pass are its
    create calls, there is at most one, and it is on the Authorino
    resource. *)
Theorem ensurer_only_creates (r : t) (ctx : Context.t)
    (resourceEvents : list ResourceEvent.t) (topology : Topology.t)
    (err : option error) :
  let pass := Reconcile r ctx resourceEvents topology err in
  writes (trace pass) = creates (trace pass)
  ∧ (length (writes (trace pass)) ≤ 1)%nat
  ∧ forallb isAuthorinoCreate (writes (trace pass)) = true.
Proof.
  intros pass. subst pass.
  destruct (ensurer_writes r ctx resourceEvents topology err)
    as [[Hw Hc] | (kobj & rest & _ & Hw & Hc)];
    rewrite Hw, Hc; repeat split; cbn; lia.
Qed.

(** X21. What is created is the Authorino of the first RootPolicyOwner
    root: with a conversion that hands over what it is given, the object of
    a create call is named "authorino", lives in the root's namespace and is
    owned by the root through one owner reference that blocks the owner's
    deletion and marks it as controller; it is cluster wide, supersedes host
    subsets and has TLS disabled on the listener and on the OIDC server. *)
Theorem ensurer_creates_owned_authorino (r : t) (ctx : Context.t)
    (resourceEvents : list ResourceEvent.t) (topology : Topology.t)
    (err : option error) (resource : Resource) (namespace : string)
    (obj : option Unstructured) :
  (∀ o, Destruct o = (Some (UnstructuredOf o), None)) →
  CreateCall resource namespace obj
  ∈ trace (Reconcile r ctx resourceEvents topology err) →
  ∃ kobj rest authorino,
    rootOwners topology = KuadrantItem kobj :: rest
    ∧ resource = AuthorinoResource
    ∧ namespace = Meta.Namespace (Kuadrant.ObjectMeta kobj)
    ∧ obj = Some (UnstructuredOf (AuthorinoObject authorino))
    ∧ Meta.Name (Authorino.ObjectMeta authorino) = "authorino"
    ∧ Meta.Namespace (Authorino.ObjectMeta authorino) = namespace
    ∧ Meta.OwnerReferences (Authorino.ObjectMeta authorino)
      = [ {| Meta.OwnerAPIVersion := Meta.APIVersion (Kuadrant.TypeMeta kobj);
             Meta.OwnerKind := Meta.Kind (Kuadrant.TypeMeta kobj);
             Meta.OwnerName := Meta.Name (Kuadrant.ObjectMeta kobj);
             Meta.OwnerUID := Meta.UID (Kuadrant.ObjectMeta kobj);
             Meta.BlockOwnerDeletion := Some true;
             Meta.Controller := Some true |} ]
    ∧ Authorino.ClusterWide (Authorino.Spec authorino) = true
    ∧ Authorino.SupersedingHostSubsets (Authorino.Spec authorino) = true
    ∧ Authorino.Enabled
        (Authorino.ListenerTls (Authorino.SpecListener (Authorino.Spec authorino)))
      = Some false
    ∧ Authorino.Enabled
        (Authorino.OIDCServerTls (Authorino.SpecOIDCServer (Authorino.Spec authorino)))
      = Some false.
Proof.
  intros Hdestruct Hin.
  assert (Hc : CreateCall resource namespace obj
               ∈ creates (trace (Reconcile r ctx resourceEvents topology err))).
  { unfold creates. apply list_elem_of_In, List.filter_In.
    split; [apply list_elem_of_In; exact Hin | reflexivity]. }
  destruct (ensurer_writes r ctx resourceEvents topology err)
    as [[_ Hnone] | (kobj & rest & Howners & _ & Hone)].
  - rewrite Hnone in Hc. inversion Hc.
  - rewrite Hone in Hc. apply list_elem_of_singleton in Hc.
    unfold createCall in Hc. rewrite Hdestruct in Hc. cbn [fst] in Hc.
    injection Hc as -> -> ->.
    exists kobj, rest, (newAuthorino kobj).
    repeat split; [exact Howners].
Qed.

(** X24. The ensurer does not create twice.  The Authorino it builds
    carries the kind "Authorino"; when that is the kind the ensurer looks
    for, a topology that holds the Authorino built for any root, or any other
    object of that kind, makes every later pass skip the create. *)
Theorem ensurer_skips_when_backend_exists (r : t) (ctx : Context.t)
    (resourceEvents : list ResourceEvent.t) (topology : Topology.t)
    (err : option error) (kobj : Kuadrant.t) :
  Meta.GKKind AuthorinoKind = "Authorino" →
  RuntimeObject (AuthorinoObject (newAuthorino kobj)) ∈ Topology.Items topology →
  writes (trace (Reconcile r ctx resourceEvents topology err)) = [].
Proof.
  intros Hkind Hin.
  assert (Hback : backendInstances topology ≠ []).
  { intros Hnil.
    assert (Hmem : RuntimeObject (AuthorinoObject (newAuthorino kobj))
                   ∈ backendInstances topology).
    { unfold backendInstances. apply list_elem_of_In, List.filter_In.
      split; [apply list_elem_of_In; exact Hin|].
      unfold isBackendInstance. rewrite Hkind.
      apply bool_decide_eq_true_2. reflexivity. }
    rewrite Hnil in Hmem. inversion Hmem. }
  destruct (ensurer_outcome r ctx resourceEvents topology err)
    as [msg Hroots | Hroots | k rest Hroots Hdel | k rest Hroots Hdel Hback'
        | k rest Hroots Hdel Hback'];
    unfold trace; cbn [fst]; try reflexivity.
  - rewrite !writes_app, writes_multipleRoots. reflexivity.
  - rewrite !writes_app, writes_multipleRoots. reflexivity.
  - contradiction.
Qed.

End Reconcile.

End AuthorinoCrReconciler.

(** *** The workflow *)

Module StateOfTheWorld.

Import Controller.

Section Build.

(** The constants and library functions of the reconcile functions above,
    and [operatorNamespace], read from the environment when the program
    starts. *)
Variable KuadrantKind AuthorinoKind : Meta.GroupKind.
Variable TopologyLabel : string.
Variable operatorNamespace : string.
Variable Destruct : Object → option Unstructured * option error.
Variable Diff : option Object → option Object → string.

(** [buildReconciler] builds the three reconcilers first;
    [NewTopologyFileReconciler] panics on a blank namespace. *)
Definition buildReconciler (client : DynamicClient.t) : Res ReconcileFunc :=
  match TopologyFileReconciler.NewTopologyFileReconciler client operatorNamespace with
  | Panic msg => Panic msg
  | Ok topologyFileReconciler =>
      let reconciler :=
        {| Workflow.Precondition :=
             Some (Workflow.Run
                     {| Workflow.Precondition :=
                          Some (EventLogger.Log Diff EventLogger.NewEventLogger);
                        Workflow.Tasks :=
                          [ TopologyFileReconciler.Reconcile TopologyLabel Destruct
                              topologyFileReconciler ] |});
           Workflow.Tasks :=
             [ Subscription.Reconcile
                 (AuthorinoCrReconciler.Subscription KuadrantKind AuthorinoKind
                    Destruct
                    (AuthorinoCrReconciler.NewAuthorinoCrReconciler client)) ] |} in
      Ok (Workflow.Run reconciler)
  end.

(** *** Properties *)

(** The two event shapes the backend ensurer subscribes to. *)
Definition triggersEnsurer (event : ResourceEvent.t) : bool :=
  bool_decide (ResourceEvent.Kind event = KuadrantKind
               ∧ ResourceEvent.EventType event = CreateEvent)
  || bool_decide (ResourceEvent.Kind event = AuthorinoKind
                  ∧ ResourceEvent.EventType event = DeleteEvent).

Lemma existsb_pointwise {A} (f g : A → bool) (l : list A) :
  (∀ x, f x = g x) → existsb f l = existsb g l.
Proof.
  intros Hfg. induction l as [|x l IH]; [reflexivity|].
  cbn. rewrite Hfg, IH. reflexivity.
Qed.

Lemma Subscription_matches r event :
  existsb (λ m, Subscription.matches m event)
    (Subscription.Events
       (AuthorinoCrReconciler.Subscription KuadrantKind AuthorinoKind Destruct r))
  = triggersEnsurer event.
Proof.
  unfold triggersEnsurer, Subscription.matches. cbn.
  rewrite orb_false_r, !bool_decide_and.
  rewrite (bool_decide_ext (KuadrantKind = _) (ResourceEvent.Kind event = KuadrantKind))
    by (split; congruence).
  rewrite (bool_decide_ext (AuthorinoKind = _) (ResourceEvent.Kind event = AuthorinoKind))
    by (split; congruence).
  rewrite (bool_decide_ext (CreateEvent = _) (ResourceEvent.EventType event = CreateEvent))
    by (split; congruence).
  rewrite (bool_decide_ext (DeleteEvent = _) (ResourceEvent.EventType event = DeleteEvent))
    by (split; congruence).
  reflexivity.
Qed.

(** C9. The shipped composition.  Built with a non-blank operator namespace,
    the reconcile function is, on every pass, the event recorder, then the
    topology snapshot synchronizer, then the backend ensurer's subscription:
    its trace is theirs in that order.  The subscription lists exactly two
    matchers, creation of the root owner kind and deletion of the backend
    instance kind, and it runs the ensurer when some event of the batch has
    one of the two shapes and does nothing otherwise. *)
Theorem buildReconciler_composition (client : DynamicClient.t) :
  operatorNamespace ≠ "" →
  let topologyFileReconciler :=
    {| TopologyFileReconciler.Client := client;
       TopologyFileReconciler.Namespace := operatorNamespace |} in
  let authorinoCrReconciler := AuthorinoCrReconciler.NewAuthorinoCrReconciler client in
  let recorder := EventLogger.Log Diff EventLogger.NewEventLogger in
  let synchronizer :=
    TopologyFileReconciler.Reconcile TopologyLabel Destruct topologyFileReconciler in
  let ensurer :=
    AuthorinoCrReconciler.Reconcile KuadrantKind AuthorinoKind Destruct
      authorinoCrReconciler in
  let subscription :=
    AuthorinoCrReconciler.Subscription KuadrantKind AuthorinoKind Destruct
      authorinoCrReconciler in
  ∃ reconciler,
    buildReconciler client = Ok reconciler
    ∧ (∀ ctx resourceEvents topology err,
         reconciler ctx resourceEvents topology err
         = (recorder ctx resourceEvents topology err;;
            synchronizer ctx resourceEvents topology err;;
            Subscription.Reconcile subscription ctx resourceEvents topology err)
         ∧ trace (reconciler ctx resourceEvents topology err)
           = trace (recorder ctx resourceEvents topology err)
             ++ (if returns (result (recorder ctx resourceEvents topology err))
                 then
                   trace (synchronizer ctx resourceEvents topology err)
                   ++ (if returns (result (synchronizer ctx resourceEvents
                                             topology err))
                       then trace (Subscription.Reconcile subscription ctx
                                     resourceEvents topology err)
                       else [])
                 else []))
    ∧ Subscription.Events subscription
      = [ {| ResourceEventMatcher.Kind := Some KuadrantKind;
             ResourceEventMatcher.EventType := Some CreateEvent |};
          {| ResourceEventMatcher.Kind := Some AuthorinoKind;
             ResourceEventMatcher.EventType := Some DeleteEvent |} ]
    ∧ ∀ ctx resourceEvents topology err,
        Subscription.Reconcile subscription ctx resourceEvents topology err
        = if existsb triggersEnsurer resourceEvents
          then ensurer ctx resourceEvents topology err
          else mret ().
Proof.
  intros Hns tfr acr recorder synchronizer ensurer subscription.
  unfold buildReconciler, TopologyFileReconciler.NewTopologyFileReconciler.
  rewrite bool_decide_eq_false_2 by exact Hns.
  eexists. split; [reflexivity|]. split; [|split; [reflexivity|]].
  - intros ctx resourceEvents topology err.
    assert (Heq :
      Workflow.Run
        {| Workflow.Precondition :=
             Some (Workflow.Run
                     {| Workflow.Precondition := Some recorder;
                        Workflow.Tasks := [synchronizer] |});
           Workflow.Tasks := [Subscription.Reconcile subscription] |}
        ctx resourceEvents topology err
      = (recorder ctx resourceEvents topology err;;
         synchronizer ctx resourceEvents topology err;;
         Subscription.Reconcile subscription ctx resourceEvents topology err)).
    { unfold Workflow.Run. cbn [Workflow.Precondition Workflow.Tasks].
      rewrite !forRange_one. apply bind_assoc. }
    split; [exact Heq|].
    fold tfr synchronizer recorder acr subscription. rewrite Heq.
    rewrite trace_bind. f_equal.
    destruct (result (recorder ctx resourceEvents topology err)); [|reflexivity].
    cbn [returns]. rewrite trace_bind. f_equal.
    destruct (result (synchronizer ctx resourceEvents topology err)); reflexivity.
  - intros ctx resourceEvents topology err.
    unfold Subscription.Reconcile.
    rewrite (existsb_pointwise _ triggersEnsurer)
      by (intros event; apply Subscription_matches).
    reflexivity.
Qed.

(** C5. At both create sites, once the create call is made and the server
    answers it with an error: the pass still returns, and what it logs after
    the call holds no error entry when the error is "already exists", and is
    the error entry of that very error otherwise. *)
Theorem create_already_exists_is_success :
  (∀ (r : TopologyFileReconciler.t) ctx resourceEvents topology err
     resource namespace obj post createErr,
     afterFirstCreate
       (trace (TopologyFileReconciler.Reconcile TopologyLabel Destruct r ctx
                 resourceEvents topology err))
     = Some (resource, namespace, obj, post) →
     DynamicClient.Create (TopologyFileReconciler.Client r) resource namespace obj
     = Some createErr →
     result (TopologyFileReconciler.Reconcile TopologyLabel Destruct r ctx
               resourceEvents topology err) = Ok ()
     ∧ errorLogs post
       = if IsAlreadyExists createErr then []
         else [ Log (ErrorEntry "topology file" createErr
                       "failed to write topology configmap" []) ])
  ∧ (∀ (r : AuthorinoCrReconciler.t) ctx resourceEvents topology err
       resource namespace obj post createErr,
       afterFirstCreate
         (trace (AuthorinoCrReconciler.Reconcile KuadrantKind AuthorinoKind
                   Destruct r ctx resourceEvents topology err))
       = Some (resource, namespace, obj, post) →
       DynamicClient.Create (AuthorinoCrReconciler.Client r) resource namespace obj
       = Some createErr →
       result (AuthorinoCrReconciler.Reconcile KuadrantKind AuthorinoKind
                 Destruct r ctx resourceEvents topology err) = Ok ()
       ∧ errorLogs post
         = if IsAlreadyExists createErr then []
           else [ Log (ErrorEntry "AuthorinoCrReconciler" createErr
                         "failed to create authorino resource"
                         [("status", VString "error")]) ]).
Proof.
  split.
  - intros r ctx resourceEvents topology err resource namespace obj post
      createErr Hcall Hanswer.
    destruct (TopologyFileReconciler.synchronizer_after_create _ _ _ _ _ _ _ _ _ _ _
                Hcall) as [Hres ->].
    split; [exact Hres|]. rewrite Hanswer. cbn.
    destruct (IsAlreadyExists createErr); reflexivity.
  - intros r ctx resourceEvents topology err resource namespace obj post
      createErr Hcall Hanswer.
    destruct (AuthorinoCrReconciler.ensurer_after_create _ _ _ _ _ _ _ _ _ _ _ _
                Hcall) as [Hres ->].
    split; [exact Hres|]. rewrite Hanswer. cbn.
    destruct (IsAlreadyExists createErr); reflexivity.
Qed.

(** *** Further properties *)

(** The shipped workflow, run: the three reconcile functions in sequence. *)
Lemma shipped_workflow_runs recorder synchronizer subscribed
    ctx resourceEvents topology err :
  Workflow.Run
    {| Workflow.Precondition :=
         Some (Workflow.Run
                 {| Workflow.Precondition := Some recorder;
                    Workflow.Tasks := [synchronizer] |});
       Workflow.Tasks := [subscribed] |}
    ctx resourceEvents topology err
  = (recorder ctx resourceEvents topology err;;
     synchronizer ctx resourceEvents topology err;;
     subscribed ctx resourceEvents topology err).
Proof.
  unfold Workflow.Run. cbn [Workflow.Precondition Workflow.Tasks].
  rewrite !forRange_one. apply bind_assoc.
Qed.

Lemma buildReconciler_built client reconciler :
  buildReconciler client = Ok reconciler →
  operatorNamespace ≠ ""
  ∧ ∀ ctx resourceEvents topology err,
      reconciler ctx resourceEvents topology err
      = (EventLogger.Log Diff EventLogger.NewEventLogger ctx resourceEvents
           topology err;;
         TopologyFileReconciler.Reconcile TopologyLabel Destruct
           {| TopologyFileReconciler.Client := client;
              TopologyFileReconciler.Namespace := operatorNamespace |}
           ctx resourceEvents topology err;;
         Subscription.Reconcile
           (AuthorinoCrReconciler.Subscription KuadrantKind AuthorinoKind Destruct
              (AuthorinoCrReconciler.NewAuthorinoCrReconciler client))
           ctx resourceEvents topology err).
Proof.
  unfold buildReconciler, TopologyFileReconciler.NewTopologyFileReconciler.
  case_bool_decide as Hns; [discriminate|].
  intros [= <-]. split; [exact Hns|].
  intros ctx resourceEvents topology err. apply shipped_workflow_runs.
Qed.

(** A write to the snapshot record: a create or an update of a ConfigMap in
    the operator's namespace. *)
Definition isSnapshotWrite (e : Effect) : bool :=
  match e with
  | CreateCall ConfigMapsResource namespace _ => String.eqb namespace operatorNamespace
  | UpdateCall ConfigMapsResource namespace _ => String.eqb namespace operatorNamespace
  | _ => false
  end.

(** X17. The controller cannot be built without an operator namespace:
    [buildReconciler] panics, with the message of
    [NewTopologyFileReconciler], exactly when the namespace is blank. *)
Theorem buildReconciler_needs_namespace (client : DynamicClient.t) :
  (operatorNamespace = ""
   ↔ buildReconciler client
     = Panic "namespace must be specified and can not be a blank string")
  ∧ (operatorNamespace ≠ "" ↔ returns (buildReconciler client) = true).
Proof.
  unfold buildReconciler, TopologyFileReconciler.NewTopologyFileReconciler.
  case_bool_decide as Hns; cbn.
  - split; split; intros; try reflexivity; try discriminate;
      try contradiction; assumption.
  - split; split; intros; try reflexivity; try discriminate;
      try contradiction; assumption.
Qed.

(** X22. A batch without an event of the two shapes the ensurer subscribes
    to leaves the backend alone: the whole pass writes at most once, and
    only to the snapshot record in the operator's namespace. *)
Theorem pass_without_trigger_writes_snapshot_only (client : DynamicClient.t)
    (reconciler : ReconcileFunc) (ctx : Context.t)
    (resourceEvents : list ResourceEvent.t) (topology : Topology.t)
    (err : option error) :
  buildReconciler client = Ok reconciler →
  existsb triggersEnsurer resourceEvents = false →
  forallb isSnapshotWrite (writes (trace (reconciler ctx resourceEvents topology err)))
  = true
  ∧ (length (writes (trace (reconciler ctx resourceEvents topology err))) ≤ 1)%nat.
Proof.
  intros Hbuilt Hquiet.
  destruct (buildReconciler_built client reconciler Hbuilt) as [_ Hrun].
  rewrite Hrun. clear Hrun.
  assert (Hsub :
    Subscription.Reconcile
      (AuthorinoCrReconciler.Subscription KuadrantKind AuthorinoKind Destruct
         (AuthorinoCrReconciler.NewAuthorinoCrReconciler client))
      ctx resourceEvents topology err = mret ()).
  { unfold Subscription.Reconcile.
    rewrite (existsb_pointwise _ triggersEnsurer)
      by (intros event; apply Subscription_matches).
    rewrite Hquiet. reflexivity. }
  rewrite Hsub, trace_bind, writes_app, EventLogger.Log_writes_nil.
  cbn [app].
  destruct (result (EventLogger.Log Diff EventLogger.NewEventLogger ctx
                      resourceEvents topology err)); [|split; [reflexivity|cbn; lia]].
  rewrite trace_bind, writes_app, TopologyFileReconciler.synchronizer_writes.
  assert (Hnil : writes
            match result (TopologyFileReconciler.Reconcile TopologyLabel Destruct
                            {| TopologyFileReconciler.Client := client;
                               TopologyFileReconciler.Namespace := operatorNamespace |}
                            ctx resourceEvents topology err) with
            | Ok _ => trace (mret () : M Effect ())
            | Panic _ => []
            end = []).
  { destruct (result _); reflexivity. }
  rewrite Hnil, app_nil_r.
  destruct (TopologyFileReconciler.existing TopologyLabel _ topology)
    as [|[k|[k'|cm|au|tm om]|tm' om'] rest];
    try case_bool_decide; cbn; rewrite ?String.eqb_refl; split; (reflexivity || lia).
Qed.

(** X23. When the recorder and the synchronizer return, the writes of a
    pass are the synchronizer's followed by the subscribed ensurer's: the
    snapshot record is written before the backend instance is created. *)
Theorem pass_writes_in_order (client : DynamicClient.t)
    (reconciler : ReconcileFunc) (ctx : Context.t)
    (resourceEvents : list ResourceEvent.t) (topology : Topology.t)
    (err : option error) :
  buildReconciler client = Ok reconciler →
  returns (result (EventLogger.Log Diff EventLogger.NewEventLogger ctx
                     resourceEvents topology err)) = true →
  returns (result (TopologyFileReconciler.Reconcile TopologyLabel Destruct
                     {| TopologyFileReconciler.Client := client;
                        TopologyFileReconciler.Namespace := operatorNamespace |}
                     ctx resourceEvents topology err)) = true →
  writes (trace (reconciler ctx resourceEvents topology err))
  = writes (trace (TopologyFileReconciler.Reconcile TopologyLabel Destruct
                     {| TopologyFileReconciler.Client := client;
                        TopologyFileReconciler.Namespace := operatorNamespace |}
                     ctx resourceEvents topology err))
    ++ writes (trace (Subscription.Reconcile
                        (AuthorinoCrReconciler.Subscription KuadrantKind
                           AuthorinoKind Destruct
                           (AuthorinoCrReconciler.NewAuthorinoCrReconciler client))
                        ctx resourceEvents topology err)).
Proof.
  intros Hbuilt Hrecorded Hsynchronized.
  destruct (buildReconciler_built client reconciler Hbuilt) as [_ Hrun].
  rewrite Hrun. clear Hrun.
  rewrite trace_bind, writes_app, EventLogger.Log_writes_nil. cbn [app].
  destruct (result (EventLogger.Log Diff EventLogger.NewEventLogger ctx
                      resourceEvents topology err)); [|discriminate].
  rewrite trace_bind, writes_app.
  destruct (result (TopologyFileReconciler.Reconcile TopologyLabel Destruct _ ctx
                      resourceEvents topology err)); [|discriminate].
  reflexivity.
Qed.

End Build.

(** *** A concrete cluster

    The constants as the API packages declare them, a cluster with one
    Kuadrant in the operator's namespace, and API servers that answer every
    call the same way. *)

Definition KuadrantKind : Meta.GroupKind :=
  {| Meta.Group := "kuadrant.io"; Meta.GKKind := "Kuadrant" |}.
Definition AuthorinoKind : Meta.GroupKind :=
  {| Meta.Group := "operator.authorino.kuadrant.io"; Meta.GKKind := "Authorino" |}.
Definition TopologyLabel : string := "kuadrant.io/topology".
Definition operatorNamespace : string := "kuadrant-system".

(** A conversion that succeeds, and one that fails with a nil pointer and an
    error. *)
Definition destructs (o : Object) : option Unstructured * option error :=
  (Some (UnstructuredOf o), None).
Definition destructFails (o : Object) : option Unstructured * option error :=
  (None, Some (ErrorString "unable to convert object to unstructured")).

Definition noDiff (old new : option Object) : string := "".

Definition answering (answer : option error) : DynamicClient.t :=
  {| DynamicClient.Create := λ _ _ _, answer;
     DynamicClient.Update := λ _ _ _, answer |}.

Definition alreadyExists : error :=
  StatusError StatusReasonAlreadyExists "configmaps topology already exists".

Definition sampleKuadrant : Kuadrant.t :=
  {| Kuadrant.TypeMeta :=
       {| Meta.Kind := "Kuadrant"; Meta.APIVersion := "kuadrant.io/v1beta1" |};
     Kuadrant.ObjectMeta :=
       {| Meta.Name := "kuadrant-sample"; Meta.Namespace := "kuadrant-system";
          Meta.UID := "8f2a"; Meta.Generation := 1;
          Meta.DeletionTimestamp := None; Meta.Labels := ∅;
          Meta.OwnerReferences := [] |} |}.

Definition snapshotRecord (text : string) : ConfigMap.t :=
  {| ConfigMap.TypeMeta := {| Meta.Kind := "ConfigMap"; Meta.APIVersion := "v1" |};
     ConfigMap.ObjectMeta :=
       {| Meta.Name := "topology"; Meta.Namespace := "kuadrant-system";
          Meta.UID := "c01d"; Meta.Generation := 0;
          Meta.DeletionTimestamp := None;
          Meta.Labels := {[ TopologyLabel := "true" ]};
          Meta.OwnerReferences := [] |};
     ConfigMap.Data := {[ "topology" := text ]} |}.

(** The cluster before the first pass, and once a snapshot record holding
    [text] is in the topology. *)
Definition freshCluster : Topology.t :=
  {| Topology.Roots := [KuadrantItem sampleKuadrant];
     Topology.Items := [KuadrantItem sampleKuadrant];
     Topology.ToDot := "strict digraph { kuadrant-sample }" |}.

Definition clusterWithRecord (text : string) : Topology.t :=
  {| Topology.Roots :=
       [KuadrantItem sampleKuadrant;
        RuntimeObject (ConfigMapObject (snapshotRecord text))];
     Topology.Items :=
       [KuadrantItem sampleKuadrant;
        RuntimeObject (ConfigMapObject (snapshotRecord text))];
     Topology.ToDot := "strict digraph { kuadrant-sample topology }" |}.

Definition kuadrantCreated : ResourceEvent.t :=
  {| ResourceEvent.Kind := KuadrantKind;
     ResourceEvent.EventType := CreateEvent;
     ResourceEvent.OldObject := None;
     ResourceEvent.NewObject := Some (KuadrantObject sampleKuadrant) |}.

Definition recordDeleted : ResourceEvent.t :=
  {| ResourceEvent.Kind := TopologyFileReconciler.ConfigMapGroupKind;
     ResourceEvent.EventType := DeleteEvent;
     ResourceEvent.OldObject := Some (ConfigMapObject (snapshotRecord "strict digraph { }"));
     ResourceEvent.NewObject := None |}.

Definition quiet : Context.t := {| Context.V1Enabled := false |}.

Definition topologyFileReconciler (answer : option error) : TopologyFileReconciler.t :=
  {| TopologyFileReconciler.Client := answering answer;
     TopologyFileReconciler.Namespace := operatorNamespace |}.

Definition authorinoCrReconciler (answer : option error) : AuthorinoCrReconciler.t :=
  AuthorinoCrReconciler.NewAuthorinoCrReconciler (answering answer).

(** On the fresh cluster the ensurer creates the Authorino of the sample
    Kuadrant, in its namespace. *)
Example ensurer_creates_once :
  creates (trace (AuthorinoCrReconciler.Reconcile KuadrantKind AuthorinoKind
                    destructs (authorinoCrReconciler None) quiet
                    [kuadrantCreated] freshCluster None))
  = [ CreateCall AuthorinoResource "kuadrant-system"
        (Some (UnstructuredOf
                 (AuthorinoObject
                    (AuthorinoCrReconciler.newAuthorino sampleKuadrant)))) ].
Proof. reflexivity. Qed.

(** C8. The conversion fails, with a nil pointer and an error: at both
    sites the error is logged and the pass goes on to the write, which it
    issues with that nil pointer: the create of the snapshot record, the
    update of a stale record, and the create of the Authorino. *)
Theorem destruct_failure_still_submits :
  trace (TopologyFileReconciler.Reconcile TopologyLabel destructFails
           (topologyFileReconciler None) quiet [kuadrantCreated] freshCluster None)
  = [ Log (ErrorEntry "topology file"
             (ErrorString "unable to convert object to unstructured")
             "failed to destruct topology configmap" []);
      CreateCall ConfigMapsResource "kuadrant-system" None ]
  ∧ trace (TopologyFileReconciler.Reconcile TopologyLabel destructFails
             (topologyFileReconciler None) quiet [kuadrantCreated]
             (clusterWithRecord "strict digraph { }") None)
    = [ Log (ErrorEntry "topology file"
               (ErrorString "unable to convert object to unstructured")
               "failed to destruct topology configmap" []);
        UpdateCall ConfigMapsResource "kuadrant-system" None ]
  ∧ writes (trace (AuthorinoCrReconciler.Reconcile KuadrantKind AuthorinoKind
                     destructFails (authorinoCrReconciler None) quiet
                     [kuadrantCreated] freshCluster None))
    = [ CreateCall AuthorinoResource "kuadrant-system" None ]
  ∧ errorLogs (trace (AuthorinoCrReconciler.Reconcile KuadrantKind AuthorinoKind
                        destructFails (authorinoCrReconciler None) quiet
                        [kuadrantCreated] freshCluster None))
    = [ Log (ErrorEntry "AuthorinoCrReconciler"
               (ErrorString "unable to convert object to unstructured")
               "failed to destruct authorino" [("status", VString "error")]) ].
Proof. repeat split; reflexivity. Qed.

(** Whatever the conversion returns, the synchronizer that finds no record
    and the ensurer that is to create go on to the create call with the
    pointer they got. *)
Lemma synchronizer_submits_whatever_destruct_returns
    (Destruct : Object → option Unstructured * option error) r ctx
    resourceEvents topology err :
  TopologyFileReconciler.existing TopologyLabel r topology = [] →
  TopologyFileReconciler.createCall TopologyLabel Destruct r topology
  ∈ trace (TopologyFileReconciler.Reconcile TopologyLabel Destruct r ctx
             resourceEvents topology err).
Proof.
  intros Hex.
  destruct (TopologyFileReconciler.synchronizer_outcome TopologyLabel Destruct r ctx
              resourceEvents topology err)
    as [Hnil | cm rest Hfound | item rest msg Hitem Hill].
  - unfold trace; cbn [fst]. apply elem_of_app. right. left.
  - unfold TopologyFileReconciler.existing in *. congruence.
  - unfold TopologyFileReconciler.existing in *. congruence.
Qed.

Lemma Reconcile_updates_iff_stale_witness :
  let r := topologyFileReconciler None in
  let stale := clusterWithRecord "strict digraph { kuadrant-sample }" in
  let fresh := clusterWithRecord "strict digraph { kuadrant-sample topology }" in
  writes (trace (TopologyFileReconciler.Reconcile TopologyLabel destructs r quiet
                   [kuadrantCreated] stale None))
  = [TopologyFileReconciler.updateCall TopologyLabel destructs r stale]
  ∧ writes (trace (TopologyFileReconciler.Reconcile TopologyLabel destructs r
                     quiet [] fresh None))
    = [].
Proof.
  intros r stale fresh.
  destruct (TopologyFileReconciler.Reconcile_updates_iff_stale TopologyLabel
              destructs r quiet [kuadrantCreated] stale None
              (snapshotRecord "strict digraph { kuadrant-sample }") eq_refl)
    as (_ & Hwrites & Hnext).
  split; [exact Hwrites|].
  apply (Hnext quiet [] fresh None
           (snapshotRecord "strict digraph { kuadrant-sample topology }"));
    reflexivity.
Defined.

(** An update of the sample Kuadrant whose new object came without its type
    metadata, as decoded objects do. *)
Definition kuadrantUpdated : ResourceEvent.t :=
  {| ResourceEvent.Kind := KuadrantKind;
     ResourceEvent.EventType := UpdateEvent;
     ResourceEvent.OldObject := Some (KuadrantObject sampleKuadrant);
     ResourceEvent.NewObject :=
       Some (KuadrantObject
               {| Kuadrant.TypeMeta := {| Meta.Kind := ""; Meta.APIVersion := "" |};
                  Kuadrant.ObjectMeta := Kuadrant.ObjectMeta sampleKuadrant |}) |}.

Lemma Log_total_witness :
  let pass :=
    EventLogger.Log noDiff EventLogger.NewEventLogger quiet
      [kuadrantCreated; kuadrantUpdated; recordDeleted] freshCluster
      (Some alreadyExists) in
  (length (List.filter EventLogger.isNewEvent (trace pass)) = 3%nat
   ∧ length (errorLogs (trace pass)) = 3%nat)
  ∧ pass
    = ([ Log (Info "event logger" 0 "new event"
                [ ("type", VString "create"); ("kind", VString "Kuadrant");
                  ("namespace", VString "kuadrant-system");
                  ("name", VString "kuadrant-sample") ]);
         Log (ErrorEntry "event logger" alreadyExists
                "error passed to reconcile" []);
         Log (Info "event logger" 0 "new event"
                [ ("type", VString "update"); ("kind", VString "Kuadrant");
                  ("namespace", VString "kuadrant-system");
                  ("name", VString "kuadrant-sample") ]);
         Log (ErrorEntry "event logger" alreadyExists
                "error passed to reconcile" []);
         Log (Info "event logger" 0 "new event"
                [ ("type", VString "delete"); ("kind", VString "ConfigMap");
                  ("namespace", VString "kuadrant-system");
                  ("name", VString "topology") ]);
         Log (ErrorEntry "event logger" alreadyExists
                "error passed to reconcile" []) ],
       Ok ()).
Proof.
  intros pass.
  destruct (EventLogger.Log_total noDiff EventLogger.NewEventLogger quiet
              [kuadrantCreated; kuadrantUpdated; recordDeleted] freshCluster
              (Some alreadyExists))
    as (objs & Hdescribed & Hrun & Hlines & Herrors).
  - constructor; [right; discriminate|].
    constructor; [left; discriminate|].
    constructor; [left; discriminate|]. constructor.
  - split; [split; [exact Hlines | exact Herrors]|].
    apply Forall2_cons_inv_l in Hdescribed
      as (obj1 & objs1 & H1 & Hdescribed & ->).
    apply Forall2_cons_inv_l in Hdescribed
      as (obj2 & objs2 & H2 & Hdescribed & ->).
    apply Forall2_cons_inv_l in Hdescribed
      as (obj3 & objs3 & H3 & Hdescribed & ->).
    apply Forall2_nil_inv_l in Hdescribed as ->.
    destruct H1 as [H1|[_ H1]]; [discriminate|]. injection H1 as <-.
    destruct H2 as [H2|[H2 _]]; [|discriminate]. injection H2 as <-.
    destruct H3 as [H3|[H3 _]]; [|discriminate]. injection H3 as <-.
    exact Hrun.
Defined.

Lemma buildReconciler_composition_witness :
  ∃ reconciler,
    buildReconciler KuadrantKind AuthorinoKind TopologyLabel operatorNamespace
      destructs noDiff (answering None) = Ok reconciler
    ∧ Subscription.Reconcile
        (AuthorinoCrReconciler.Subscription KuadrantKind AuthorinoKind destructs
           (authorinoCrReconciler None))
        quiet [recordDeleted] freshCluster None
      = mret ().
Proof.
  destruct (buildReconciler_composition KuadrantKind AuthorinoKind TopologyLabel
              operatorNamespace destructs noDiff (answering None))
    as (reconciler & Hbuilt & _ & _ & Hsubscribed).
  - discriminate.
  - exists reconciler. split; [exact Hbuilt|].
    exact (Hsubscribed quiet [recordDeleted] freshCluster None).
Defined.

Lemma create_already_exists_is_success_witness :
  let pass :=
    TopologyFileReconciler.Reconcile TopologyLabel destructs
      (topologyFileReconciler (Some alreadyExists)) quiet [kuadrantCreated]
      freshCluster None in
  ∃ obj post,
    afterFirstCreate (trace pass)
    = Some (ConfigMapsResource, "kuadrant-system", obj, post)
    ∧ result pass = Ok ()
    ∧ errorLogs post = [].
Proof.
  intros pass. eexists _, _. split; [reflexivity|].
  exact (proj1 (create_already_exists_is_success KuadrantKind AuthorinoKind
                  TopologyLabel destructs)
           (topologyFileReconciler (Some alreadyExists)) quiet [kuadrantCreated]
           freshCluster None _ _ _ _ alreadyExists eq_refl eq_refl).
Defined.

(** *** Further concrete passes *)

(** An event without objects, a second Kuadrant, a cluster with two snapshot
    records, and one whose snapshot record is not a wrapped ConfigMap. *)
Definition objectless : ResourceEvent.t :=
  {| ResourceEvent.Kind := KuadrantKind;
     ResourceEvent.EventType := UpdateEvent;
     ResourceEvent.OldObject := None;
     ResourceEvent.NewObject := None |}.

Definition otherKuadrant : Kuadrant.t :=
  {| Kuadrant.TypeMeta := Kuadrant.TypeMeta sampleKuadrant;
     Kuadrant.ObjectMeta :=
       {| Meta.Name := "kuadrant-other"; Meta.Namespace := "staging";
          Meta.UID := "91bc"; Meta.Generation := 1;
          Meta.DeletionTimestamp := None; Meta.Labels := ∅;
          Meta.OwnerReferences := [] |} |}.

Definition clusterWithTwoRoots : Topology.t :=
  {| Topology.Roots := [KuadrantItem sampleKuadrant; KuadrantItem otherKuadrant];
     Topology.Items := [KuadrantItem sampleKuadrant; KuadrantItem otherKuadrant];
     Topology.ToDot := "strict digraph { kuadrant-sample kuadrant-other }" |}.

Definition clusterWithTwoRecords : Topology.t :=
  {| Topology.Roots := [KuadrantItem sampleKuadrant];
     Topology.Items :=
       [ RuntimeObject (ConfigMapObject (snapshotRecord "strict digraph { }"));
         KuadrantItem sampleKuadrant;
         RuntimeObject (ConfigMapObject
                          (snapshotRecord "strict digraph { kuadrant-sample }")) ];
     Topology.ToDot := "strict digraph { kuadrant-sample }" |}.

Definition clusterWithForeignRecord : Topology.t :=
  {| Topology.Roots := [KuadrantItem sampleKuadrant];
     Topology.Items :=
       [ OtherItem
           {| Meta.Kind := "ConfigMap"; Meta.APIVersion := "v1" |}
           (ConfigMap.ObjectMeta (snapshotRecord "strict digraph { }")) ];
     Topology.ToDot := "strict digraph { kuadrant-sample }" |}.

Lemma Log_stops_at_objectless_event_witness :
  EventLogger.Log noDiff EventLogger.NewEventLogger quiet
    [kuadrantCreated; objectless; recordDeleted] freshCluster None
  = (EventLogger.entriesOf noDiff quiet None kuadrantCreated
       (KuadrantObject sampleKuadrant),
     Panic "invalid memory address or nil pointer dereference").
Proof.
  refine (EventLogger.Log_stops_at_objectless_event noDiff
            EventLogger.NewEventLogger quiet [kuadrantCreated]
            [KuadrantObject sampleKuadrant] objectless [recordDeleted]
            freshCluster None _ eq_refl eq_refl).
  constructor; [right; split; reflexivity | constructor].
Defined.

Lemma synchronizer_goes_by_first_record_witness :
  let pass :=
    TopologyFileReconciler.Reconcile TopologyLabel destructs
      (topologyFileReconciler None) quiet [kuadrantCreated]
      clusterWithTwoRecords None in
  writes (trace pass)
  = [ TopologyFileReconciler.updateCall TopologyLabel destructs
        (topologyFileReconciler None) clusterWithTwoRecords ]
  ∧ result pass = Ok ()
  ∧ (TopologyFileReconciler.multipleFoundWarning ∈ trace pass
     ↔ [ RuntimeObject
           (ConfigMapObject (snapshotRecord "strict digraph { kuadrant-sample }")) ]
       ≠ []).
Proof.
  exact (TopologyFileReconciler.synchronizer_goes_by_first_record TopologyLabel
           destructs (topologyFileReconciler None) quiet [kuadrantCreated]
           clusterWithTwoRecords None (snapshotRecord "strict digraph { }")
           [ RuntimeObject
               (ConfigMapObject
                  (snapshotRecord "strict digraph { kuadrant-sample }")) ]
           eq_refl).
Defined.

Lemma synchronizer_panics_on_other_type_witness :
  let pass :=
    TopologyFileReconciler.Reconcile TopologyLabel destructs
      (topologyFileReconciler None) quiet [kuadrantCreated]
      clusterWithForeignRecord None in
  writes (trace pass) = [] ∧ returns (result pass) = false.
Proof.
  refine (TopologyFileReconciler.synchronizer_panics_on_other_type TopologyLabel
            destructs (topologyFileReconciler None) quiet [kuadrantCreated]
            clusterWithForeignRecord None _ [] eq_refl _).
  discriminate.
Defined.

Lemma synchronizer_swallows_update_error_witness :
  let r := topologyFileReconciler (Some alreadyExists) in
  let stale := clusterWithRecord "strict digraph { kuadrant-sample }" in
  let pass :=
    TopologyFileReconciler.Reconcile TopologyLabel destructs r quiet
      [kuadrantCreated] stale None in
  result pass = Ok ()
  ∧ writes (trace pass)
    = [TopologyFileReconciler.updateCall TopologyLabel destructs r stale]
  ∧ ∃ pre,
      trace pass
      = pre ++ [ TopologyFileReconciler.updateCall TopologyLabel destructs r stale;
                 Log (ErrorEntry "topology file" alreadyExists
                        "failed to update topology configmap" []) ]
      ∧ writes pre = [].
Proof.
  refine (TopologyFileReconciler.synchronizer_swallows_update_error TopologyLabel
            destructs (topologyFileReconciler (Some alreadyExists)) quiet
            [kuadrantCreated]
            (clusterWithRecord "strict digraph { kuadrant-sample }") None
            (snapshotRecord "strict digraph { kuadrant-sample }") []
            alreadyExists eq_refl _ eq_refl).
  vm_compute. discriminate.
Defined.

Lemma ensurer_reports_multiple_roots_witness :
  let pass :=
    AuthorinoCrReconciler.Reconcile KuadrantKind AuthorinoKind destructs
      (authorinoCrReconciler None) quiet [kuadrantCreated]
      clusterWithTwoRoots None in
  List.filter AuthorinoCrReconciler.isMultipleRootsError (trace pass)
  = [ Log (ErrorEntry "AuthorinoCrReconciler"
             (ErrorString "multiple Kuadrant resources found")
             "cannot select root Kuadrant resource"
             [("status", VString "error")]) ]
  ∧ result pass = Ok ()
  ∧ ∀ e, e ∈ creates (trace pass) →
         e = AuthorinoCrReconciler.createCall destructs sampleKuadrant.
Proof.
  exact (AuthorinoCrReconciler.ensurer_reports_multiple_roots KuadrantKind
           AuthorinoKind destructs (authorinoCrReconciler None) quiet
           [kuadrantCreated] clusterWithTwoRoots None sampleKuadrant
           [otherKuadrant] eq_refl).
Defined.

Lemma ensurer_creates_owned_authorino_witness :
  ∃ kobj rest authorino,
    AuthorinoCrReconciler.rootOwners KuadrantKind clusterWithTwoRoots
    = KuadrantItem kobj :: rest
    ∧ Meta.Namespace (Kuadrant.ObjectMeta kobj) = "kuadrant-system"
    ∧ Meta.Name (Authorino.ObjectMeta authorino) = "authorino"
    ∧ Meta.Namespace (Authorino.ObjectMeta authorino) = "kuadrant-system"
    ∧ Meta.OwnerReferences (Authorino.ObjectMeta authorino)
      = [ {| Meta.OwnerAPIVersion := Meta.APIVersion (Kuadrant.TypeMeta kobj);
             Meta.OwnerKind := Meta.Kind (Kuadrant.TypeMeta kobj);
             Meta.OwnerName := Meta.Name (Kuadrant.ObjectMeta kobj);
             Meta.OwnerUID := Meta.UID (Kuadrant.ObjectMeta kobj);
             Meta.BlockOwnerDeletion := Some true;
             Meta.Controller := Some true |} ].
Proof.
  destruct (AuthorinoCrReconciler.ensurer_creates_owned_authorino KuadrantKind
              AuthorinoKind destructs (authorinoCrReconciler None) quiet
              [kuadrantCreated] clusterWithTwoRoots None AuthorinoResource
              "kuadrant-system"
              (Some (UnstructuredOf
                       (AuthorinoObject
                          (AuthorinoCrReconciler.newAuthorino sampleKuadrant))))
              (λ o, eq_refl))
    as (kobj & rest & authorino & Howners & _ & Hns & _ & Hname & Hans & Hrefs & _).
  - vm_compute. set_solver.
  - exists kobj, rest, authorino. rewrite <- Hns. auto.
Defined.

Lemma pass_without_trigger_writes_snapshot_only_witness :
  ∃ reconciler,
    buildReconciler KuadrantKind AuthorinoKind TopologyLabel operatorNamespace
      destructs noDiff (answering None) = Ok reconciler
    ∧ forallb (isSnapshotWrite operatorNamespace)
        (writes (trace (reconciler quiet [recordDeleted] freshCluster None)))
      = true
    ∧ (length (writes (trace (reconciler quiet [recordDeleted] freshCluster None)))
       ≤ 1)%nat.
Proof.
  eexists. split; [reflexivity|].
  exact (pass_without_trigger_writes_snapshot_only KuadrantKind AuthorinoKind
           TopologyLabel operatorNamespace destructs noDiff (answering None) _
           quiet [recordDeleted] freshCluster None eq_refl eq_refl).
Defined.

Lemma pass_writes_in_order_witness :
  ∃ reconciler,
    buildReconciler KuadrantKind AuthorinoKind TopologyLabel operatorNamespace
      destructs noDiff (answering None) = Ok reconciler
    ∧ writes (trace (reconciler quiet [kuadrantCreated] freshCluster None))
      = [ TopologyFileReconciler.createCall TopologyLabel destructs
            (topologyFileReconciler None) freshCluster;
          AuthorinoCrReconciler.createCall destructs sampleKuadrant ].
Proof.
  eexists. split; [reflexivity|].
  exact (pass_writes_in_order KuadrantKind AuthorinoKind TopologyLabel
           operatorNamespace destructs noDiff (answering None) _ quiet
           [kuadrantCreated] freshCluster None eq_refl eq_refl eq_refl).
Defined.

(** The cluster before the record exists, and a later one that lists the
    record first. *)
Definition clusterBefore : Topology.t :=
  {| Topology.Roots := [KuadrantItem sampleKuadrant];
     Topology.Items := [KuadrantItem sampleKuadrant];
     Topology.ToDot := "strict digraph { kuadrant-sample topology }" |}.

Definition clusterAfter : Topology.t :=
  {| Topology.Roots := [KuadrantItem sampleKuadrant];
     Topology.Items :=
       [ RuntimeObject
           (ConfigMapObject
              (snapshotRecord "strict digraph { kuadrant-sample topology }"));
         KuadrantItem sampleKuadrant ];
     Topology.ToDot := "strict digraph { kuadrant-sample topology }" |}.

Lemma synchronizer_finds_its_record_witness :
  let r := topologyFileReconciler None in
  TopologyFileReconciler.isTopologyConfigMap
    (TopologyFileReconciler.desiredConfigMap TopologyLabel r clusterAfter)
    (RuntimeObject
       (ConfigMapObject
          (snapshotRecord "strict digraph { kuadrant-sample topology }")))
  = true
  ∧ writes (trace (TopologyFileReconciler.Reconcile TopologyLabel destructs r
                     quiet [] clusterAfter None)) = []
  ∧ result (TopologyFileReconciler.Reconcile TopologyLabel destructs r quiet
              [] clusterAfter None) = Ok ().
Proof.
  exact (TopologyFileReconciler.synchronizer_finds_its_record TopologyLabel
           destructs (topologyFileReconciler None) quiet [] clusterBefore
           clusterAfter None
           (snapshotRecord "strict digraph { kuadrant-sample topology }")
           [KuadrantItem sampleKuadrant]
           eq_refl eq_refl eq_refl eq_refl eq_refl eq_refl).
Defined.

Lemma ensurer_skips_when_backend_exists_witness :
  writes (trace (AuthorinoCrReconciler.Reconcile KuadrantKind AuthorinoKind
                   destructs (authorinoCrReconciler None) quiet [kuadrantCreated]
                   {| Topology.Roots := [KuadrantItem sampleKuadrant];
                      Topology.Items :=
                        [ KuadrantItem sampleKuadrant;
                          RuntimeObject
                            (AuthorinoObject
                               (AuthorinoCrReconciler.newAuthorino sampleKuadrant)) ];
                      Topology.ToDot := "strict digraph { kuadrant-sample authorino }" |}
                   None)) = [].
Proof.
  refine (AuthorinoCrReconciler.ensurer_skips_when_backend_exists KuadrantKind
            AuthorinoKind destructs (authorinoCrReconciler None) quiet
            [kuadrantCreated] _ None sampleKuadrant eq_refl _).
  cbn [Topology.Items]. set_solver.
Defined.

End StateOfTheWorld.
